(** * demo-xfn-network: the network composition function

    A shallow embedding of [fn.go].  [RunFunction] reads a composite resource
    (id, count, includeGateway, region, providerConfigName), synthesizes one
    VPC per replica index and, on request, one InternetGateway per VPC, and
    upserts them by name into the map of desired composed resources.

    Go maps are [gmap]s, [int64] values are [Z], pointers made with [ptr.To]
    are [Some], a Go [error] is identified with the text of its [Error()]
    method.  The function SDK and the Kubernetes machinery that [fn.go] calls
    are not part of the repository: the message types they declare are
    transcribed as records, and the calls that can fail or that look into
    opaque data are parameters of the development. *)

From stdpp Require Import gmap strings list list_numbers pretty fin_maps.

Local Open Scope Z_scope.

(** ** Errors ([github.com/pkg/errors]) *)

Module errors.

Definition error := string.

(** [errors.Wrapf(err, format, args...)] for a non-nil [err]: the formatted
    message, a colon and the message of the cause.  [msg] is the format with
    its arguments already filled in. *)
Definition Wrapf (err : error) (msg : string) : error :=
  msg +:+ ": " +:+ err.

End errors.

(** ** Formatting ([fmt]) *)

Module fmt.

(** The verb [%s] on a string operand. *)
Definition verb_s (s : string) : string := s.

(** The verb [%d] on an [int64] operand: decimal digits, preceded by a minus
    sign for a negative number. *)
Definition verb_d (i : Z) : string := pretty i.

End fmt.

(** ** Object metadata ([k8s.io/apimachinery/pkg/apis/meta/v1]) *)

Module metav1.

Record ObjectMeta := {
  Name : string;
  Labels : gmap string string
}.

End metav1.

(** ** Common API types ([crossplane-runtime/apis/common/v1]) *)

Module v1.

Record Reference := {
  Name : string
}.

Record Selector := {
  MatchLabels : gmap string string;
  MatchControllerRef : option bool
}.

Record ResourceSpec := {
  ProviderConfigReference : option Reference
}.

End v1.

(** ** EC2 managed resources ([provider-aws/apis/ec2/v1beta1])

    Only the fields that [fn.go] sets are kept, together with the two direct
    references of an InternetGateway to its VPC ([VPCID], [VPCIDRef]), which
    [fn.go] leaves at their zero value. *)

Module awsv1beta1.

Record VPCParameters_2 := {
  vpcp_Region : option string;
  vpcp_CidrBlock : option string;
  vpcp_EnableDNSSupport : option bool;
  vpcp_EnableDNSHostnames : option bool
}.

Record VPCSpec := {
  vpcs_ForProvider : VPCParameters_2;
  vpcs_ResourceSpec : v1.ResourceSpec
}.

Record VPC := {
  vpc_ObjectMeta : metav1.ObjectMeta;
  vpc_Spec : VPCSpec
}.

Record InternetGatewayParameters_2 := {
  igwp_Region : option string;
  igwp_VPCID : option string;
  igwp_VPCIDRef : option v1.Reference;
  igwp_VPCIDSelector : option v1.Selector
}.

Record InternetGatewaySpec := {
  igws_ForProvider : InternetGatewayParameters_2;
  igws_ResourceSpec : v1.ResourceSpec
}.

Record InternetGateway := {
  igw_ObjectMeta : metav1.ObjectMeta;
  igw_Spec : InternetGatewaySpec
}.

End awsv1beta1.

(** A [runtime.Object] handed to [composed.From]: one of the two typed
    resources that [RunFunction] builds. *)
Inductive Object :=
  | ObjVPC (vpc : awsv1beta1.VPC)
  | ObjInternetGateway (gateway : awsv1beta1.InternetGateway).

(** The attributes of a unit under the paths of its wire form. *)
Definition metadata (o : Object) : metav1.ObjectMeta :=
  match o with
  | ObjVPC vpc => awsv1beta1.vpc_ObjectMeta vpc
  | ObjInternetGateway gateway => awsv1beta1.igw_ObjectMeta gateway
  end.

Definition forProvider_region (o : Object) : option string :=
  match o with
  | ObjVPC vpc =>
      awsv1beta1.vpcp_Region (awsv1beta1.vpcs_ForProvider (awsv1beta1.vpc_Spec vpc))
  | ObjInternetGateway gateway =>
      awsv1beta1.igwp_Region (awsv1beta1.igws_ForProvider (awsv1beta1.igw_Spec gateway))
  end.

Definition providerConfigRef (o : Object) : option v1.Reference :=
  match o with
  | ObjVPC vpc =>
      v1.ProviderConfigReference (awsv1beta1.vpcs_ResourceSpec (awsv1beta1.vpc_Spec vpc))
  | ObjInternetGateway gateway =>
      v1.ProviderConfigReference (awsv1beta1.igws_ResourceSpec (awsv1beta1.igw_Spec gateway))
  end.

(** ** Names, labels and the two resource literals of the loop body *)

Definition LabelNetworkID : string := "networks.meta.fn.crossplane.io/network-id".
Definition LabelVPCID : string := "networks.meta.fn.crossplane.io/vpc-id".

(** [fmt.Sprintf("vpc-%s-%d", id, i)] *)
Definition vpcName (id : string) (i : Z) : string :=
  "vpc-" +:+ fmt.verb_s id +:+ "-" +:+ fmt.verb_d i.

(** [fmt.Sprintf("gateway-%s-%d", id, i)] *)
Definition gatewayName (id : string) (i : Z) : string :=
  "gateway-" +:+ fmt.verb_s id +:+ "-" +:+ fmt.verb_d i.

(** The [&awsv1beta1.VPC{...}] literal. *)
Definition mkVPC (id region providerConfigName : string) (i : Z) : awsv1beta1.VPC :=
  let vpcName := vpcName id i in
  {| awsv1beta1.vpc_ObjectMeta :=
       {| metav1.Name := vpcName;
          metav1.Labels := {[ LabelNetworkID := id; LabelVPCID := vpcName ]} |};
     awsv1beta1.vpc_Spec :=
       {| awsv1beta1.vpcs_ForProvider :=
            {| awsv1beta1.vpcp_Region := Some region;
               awsv1beta1.vpcp_CidrBlock := Some "192.168.0.0/16";
               awsv1beta1.vpcp_EnableDNSSupport := Some true;
               awsv1beta1.vpcp_EnableDNSHostnames := Some true |};
          awsv1beta1.vpcs_ResourceSpec :=
            {| v1.ProviderConfigReference := Some {| v1.Name := providerConfigName |} |} |} |}.

(** The [&awsv1beta1.InternetGateway{...}] literal. *)
Definition mkGateway (id region providerConfigName : string) (i : Z)
    : awsv1beta1.InternetGateway :=
  let vpcName := vpcName id i in
  let gatewayName := gatewayName id i in
  {| awsv1beta1.igw_ObjectMeta :=
       {| metav1.Name := gatewayName;
          metav1.Labels := {[ LabelNetworkID := id ]} |};
     awsv1beta1.igw_Spec :=
       {| awsv1beta1.igws_ForProvider :=
            {| awsv1beta1.igwp_Region := Some region;
               awsv1beta1.igwp_VPCID := None;
               awsv1beta1.igwp_VPCIDRef := None;
               awsv1beta1.igwp_VPCIDSelector :=
                 Some {| v1.MatchControllerRef := Some true;
                         v1.MatchLabels := {[ LabelVPCID := vpcName ]} |} |};
          awsv1beta1.igws_ResourceSpec :=
            {| v1.ProviderConfigReference := Some {| v1.Name := providerConfigName |} |} |} |}.

(** ** The opaque data of the function SDK

    [State] is the protobuf message [fnv1.State] (a composite resource and a
    map of composed resources in wire form), [Struct] is [structpb.Struct],
    [Composite] is [resource.Composite] (the observed XR, [oxr]) and
    [Unstructured] is [composed.Unstructured], the form in which a composed
    resource is kept in the desired map. *)
Class SdkTypes := {
  State : Type;
  Struct : Type;
  Composite : Type;
  Unstructured : Type
}.

Module time.

(** [time.Duration]: a number of nanoseconds. *)
Definition Duration := Z.
Definition Second : Duration := 1000000000.
Definition Minute : Duration := 60 * Second.

End time.

Module durationpb.

Record Duration := {
  Seconds : Z;
  Nanos : Z
}.

(** [durationpb.New(d)] *)
Definition New (d : time.Duration) : Duration :=
  {| Seconds := d `quot` time.Second; Nanos := d `rem` time.Second |}.

End durationpb.

(** ** Protocol messages ([function-sdk-go/proto/v1]) *)

Module fnv1.

Inductive Severity :=
  | SEVERITY_UNSPECIFIED
  | SEVERITY_FATAL
  | SEVERITY_WARNING
  | SEVERITY_NORMAL.

#[global] Instance Severity_eq_dec : EqDecision Severity.
Proof. solve_decision. Defined.

Record Result := {
  res_Severity : Severity;
  res_Message : string
}.

Record RequestMeta := {
  reqm_Tag : string
}.

Record ResponseMeta := {
  rspm_Tag : string;
  rspm_Ttl : option durationpb.Duration
}.

Section messages.
Context `{!SdkTypes}.

Record RunFunctionRequest := {
  req_Meta : option RequestMeta;
  req_Observed : option State;
  req_Desired : option State;
  req_Context : option Struct
}.

Record RunFunctionResponse := {
  rsp_Meta : option ResponseMeta;
  rsp_Desired : option State;
  rsp_Results : list Result;
  rsp_Context : option Struct
}.

End messages.

(** [req.GetMeta().GetTag()]: the getters of a nil message return the zero
    value. *)
Definition GetTag (m : option RequestMeta) : string :=
  match m with
  | Some m => reqm_Tag m
  | None => ""
  end.

End fnv1.

(** ** Desired composed resources ([function-sdk-go/resource]) *)

Module resource.

(** [resource.Name] is a string type. *)
Abbreviation Name := string (only parsing).

Section resource.
Context `{!SdkTypes}.

(** [Ready] has the string type [resource.Ready]; its zero value is the
    empty string. *)
Record DesiredComposed := {
  Resource : Unstructured;
  Ready : string
}.

End resource.

End resource.

(** ** Building the response ([function-sdk-go/response]) *)

Module response.

(** [response.DefaultTTL], one minute; the test of the repository expects
    a time-to-live of [60 * time.Second]. *)
Definition DefaultTTL : time.Duration := 1 * time.Minute.

Section response.
Context `{!SdkTypes}.

(** [response.To(req, ttl)]: a response that echoes the tag, carries the
    time-to-live and starts from the desired state and context of the
    request, with no results. *)
Definition To (req : fnv1.RunFunctionRequest) (ttl : time.Duration)
    : fnv1.RunFunctionResponse :=
  {| fnv1.rsp_Meta :=
       Some {| fnv1.rspm_Tag := fnv1.GetTag (fnv1.req_Meta req);
               fnv1.rspm_Ttl := Some (durationpb.New ttl) |};
     fnv1.rsp_Desired := fnv1.req_Desired req;
     fnv1.rsp_Results := [];
     fnv1.rsp_Context := fnv1.req_Context req |}.

(** [response.Fatal(rsp, err)]: appends a result of fatal severity whose
    message is the text of [err]. *)
Definition Fatal (rsp : fnv1.RunFunctionResponse) (err : errors.error)
    : fnv1.RunFunctionResponse :=
  {| fnv1.rsp_Meta := fnv1.rsp_Meta rsp;
     fnv1.rsp_Desired := fnv1.rsp_Desired rsp;
     fnv1.rsp_Results :=
       fnv1.rsp_Results rsp ++
       [{| fnv1.res_Severity := fnv1.SEVERITY_FATAL; fnv1.res_Message := err |}];
     fnv1.rsp_Context := fnv1.rsp_Context rsp |}.

(** The effect of a successful or failed [SetDesiredComposedResources] on
    the response: only the desired state is written. *)
Definition withDesired (rsp : fnv1.RunFunctionResponse) (desired : option State)
    : fnv1.RunFunctionResponse :=
  {| fnv1.rsp_Meta := fnv1.rsp_Meta rsp;
     fnv1.rsp_Desired := desired;
     fnv1.rsp_Results := fnv1.rsp_Results rsp;
     fnv1.rsp_Context := fnv1.rsp_Context rsp |}.

End response.

End response.

(** ** The calls into the SDK that [RunFunction] makes

    Each call that returns [(value, error)] and whose value is discarded on
    error is a sum; the field getters, whose error [fn.go] discards and whose
    value it uses, return both. *)
Class Sdk `{!SdkTypes} := {
  (** [request.GetObservedCompositeResource(req)] *)
  GetObservedCompositeResource :
    fnv1.RunFunctionRequest → errors.error + Composite;
  (** [oxr.Resource.GetString(path)], [GetInteger], [GetBool] *)
  GetString : Composite → string → string * option errors.error;
  GetInteger : Composite → string → Z * option errors.error;
  GetBool : Composite → string → bool * option errors.error;
  (** [request.GetDesiredComposedResources(req)] *)
  GetDesiredComposedResources :
    fnv1.RunFunctionRequest →
    errors.error + gmap resource.Name resource.DesiredComposed;
  (** [composed.From(o)], with the EC2 types added to [composed.Scheme] *)
  From : Object → errors.error + Unstructured;
  (** [response.SetDesiredComposedResources(rsp, dcds)], as a function of
      the desired state of [rsp]: the state it leaves in [rsp] and the error
      it returns. *)
  SetDesiredComposedResources :
    option State → gmap resource.Name resource.DesiredComposed →
    option State * option errors.error
}.

(** ** The function ([fn.go]) *)

Section Composer.
Context `{!SdkTypes, !Sdk}.

(** What a call of [RunFunction] leaves behind: the two values it returns
    and the final content of the map [desired], the object obtained from
    [GetDesiredComposedResources] and updated in place by the loop ([None]
    when the call returned before obtaining it). *)
Record Outcome := {
  out_rsp : fnv1.RunFunctionResponse;
  out_err : option errors.error;
  out_desired : option (gmap resource.Name resource.DesiredComposed)
}.

(** The configuration read from the XR (the locals [id], [count],
    [includeGateway], [region], [providerConfigName]). *)
Definition spec_id (oxr : Composite) : string :=
  (GetString oxr "spec.id").1.

Definition spec_count (oxr : Composite) : Z :=
  (GetInteger oxr "spec.count").1.

Definition spec_includeGateway (oxr : Composite) : bool :=
  (GetBool oxr "spec.includeGateway").1.

Definition spec_region (oxr : Composite) : string :=
  let region := (GetString oxr "spec.region").1 in
  if decide (region = "") then "eu-central-1" else region.

Definition spec_providerConfigName (oxr : Composite) : string :=
  let providerConfigName := (GetString oxr "spec.providerConfigName").1 in
  if decide (providerConfigName = "") then "default" else providerConfigName.

(** One iteration of the loop on the map [desired]: the map it leaves and
    the error it stops the function with, if any. *)
Definition iteration (id : string) (includeGateway : bool)
    (region providerConfigName : string) (i : Z)
    (desired : gmap resource.Name resource.DesiredComposed)
    : gmap resource.Name resource.DesiredComposed * option errors.error :=
  let vpcName := vpcName id i in
  let vpc := mkVPC id region providerConfigName i in
  match From (ObjVPC vpc) with
  | inl err =>
      (desired,
       Some (errors.Wrapf err "cannot convert *v1beta1.VPC to *composed.Unstructured"))
  | inr dcVPC =>
      let desired :=
        <[vpcName := {| resource.Resource := dcVPC; resource.Ready := "" |}]> desired in
      if includeGateway then
        let gatewayName := gatewayName id i in
        let gateway := mkGateway id region providerConfigName i in
        match From (ObjInternetGateway gateway) with
        | inl err =>
            (desired,
             Some (errors.Wrapf err
                     "cannot convert *v1beta1.InternetGateway to *composed.Unstructured"))
        | inr dcGateway =>
            (<[gatewayName := {| resource.Resource := dcGateway; resource.Ready := "" |}]>
               desired,
             None)
        end
      else (desired, None)
  end.

(** [for i := range count], over the indices still to visit: the first
    iteration that fails ends the loop. *)
Fixpoint loop (id : string) (includeGateway : bool)
    (region providerConfigName : string) (indices : list Z)
    (desired : gmap resource.Name resource.DesiredComposed)
    : gmap resource.Name resource.DesiredComposed * option errors.error :=
  match indices with
  | [] => (desired, None)
  | i :: indices =>
      match iteration id includeGateway region providerConfigName i desired with
      | (desired, Some err) => (desired, Some err)
      | (desired, None) =>
          loop id includeGateway region providerConfigName indices desired
      end
  end.

(** [range count] visits 0, 1, ..., count-1, and nothing when [count <= 0]. *)
Definition range (count : Z) : list Z := seqZ 0 count.

(** Logging through [f.log] and the registration of the EC2 types in
    [composed.Scheme] leave no trace in the result and are not modelled. *)
Definition RunFunction (req : fnv1.RunFunctionRequest) : Outcome :=
  let rsp := response.To req response.DefaultTTL in
  match GetObservedCompositeResource req with
  | inl err =>
      {| out_rsp := response.Fatal rsp (errors.Wrapf err "cannot get desired XR");
         out_err := None;
         out_desired := None |}
  | inr oxr =>
      let id := spec_id oxr in
      let count := spec_count oxr in
      let includeGateway := spec_includeGateway oxr in
      let region := spec_region oxr in
      let providerConfigName := spec_providerConfigName oxr in
      match GetDesiredComposedResources req with
      | inl err =>
          {| out_rsp :=
               response.Fatal rsp
                 (errors.Wrapf err
                    "cannot get desired resources from *v1.RunFunctionRequest");
             out_err := None;
             out_desired := None |}
      | inr desired =>
          match loop id includeGateway region providerConfigName (range count) desired with
          | (desired, Some err) =>
              {| out_rsp := response.Fatal rsp err;
                 out_err := None;
                 out_desired := Some desired |}
          | (desired, None) =>
              match SetDesiredComposedResources (fnv1.rsp_Desired rsp) desired with
              | (state, Some err) =>
                  {| out_rsp :=
                       response.Fatal (response.withDesired rsp state)
                         (errors.Wrapf err
                            "cannot set desired composed resources in *v1.RunFunctionResponse");
                     out_err := None;
                     out_desired := Some desired |}
              | (state, None) =>
                  {| out_rsp := response.withDesired rsp state;
                     out_err := None;
                     out_desired := Some desired |}
              end
          end
      end
  end.

(** The two objects that the loop builds at index [i] for the configuration
    read from [oxr], and the loop itself for that configuration. *)
Definition vpc_of (oxr : Composite) (i : Z) : Object :=
  ObjVPC (mkVPC (spec_id oxr) (spec_region oxr) (spec_providerConfigName oxr) i).

Definition gateway_of (oxr : Composite) (i : Z) : Object :=
  ObjInternetGateway
    (mkGateway (spec_id oxr) (spec_region oxr) (spec_providerConfigName oxr) i).

Definition loop_of (oxr : Composite) :=
  loop (spec_id oxr) (spec_includeGateway oxr) (spec_region oxr)
    (spec_providerConfigName oxr).

(** The keys under which the loop writes when it runs to its end. *)
Definition vpcNames (id : string) (count : Z) : list string :=
  vpcName id <$> range count.

Definition gatewayNames (id : string) (includeGateway : bool) (count : Z) : list string :=
  if includeGateway then gatewayName id <$> range count else [].

(** A response is fatal when one of its results has fatal severity. *)
Definition is_fatal (rsp : fnv1.RunFunctionResponse) : bool :=
  existsb (λ r, bool_decide (fnv1.res_Severity r = fnv1.SEVERITY_FATAL))
    (fnv1.rsp_Results rsp).

(** The collection [desired] holds, under [name], the converted form of the
    typed object [o], as the loop inserts it. *)
Definition stores (desired : gmap resource.Name resource.DesiredComposed)
    (name : string) (o : Object) : Prop :=
  ∃ dc, From o = inr dc ∧
        desired !! name = Some {| resource.Resource := dc; resource.Ready := "" |}.

(** [composed.From] succeeds on [o]. *)
Definition converts (o : Object) : Prop := ∃ dc, From o = inr dc.

(** The messages of the fatal results of a response. *)
Definition fatal_messages (rsp : fnv1.RunFunctionResponse) : list string :=
  fnv1.res_Message <$>
  filter (λ r, fnv1.res_Severity r = fnv1.SEVERITY_FATAL) (fnv1.rsp_Results rsp).

End Composer.

(** ** A small instance of the SDK

    Used to run [RunFunction] on concrete requests.  The XR is a record of
    optional fields, a composed resource is kept as the typed object itself,
    and [composed.From] refuses the objects whose name is in a given list
    (standing for a type missing from the scheme or a failed JSON round
    trip). *)

Module fake.

Record XR := {
  xr_id : option string;
  xr_count : option Z;
  xr_includeGateway : option bool;
  xr_region : option string;
  xr_providerConfigName : option string
}.

Record FakeState := {
  st_Composite : option XR;
  st_Resources : gmap string (Object * string)
}.

#[local] Instance types : SdkTypes := {|
  State := FakeState;
  Struct := unit;
  Composite := XR;
  Unstructured := Object
|}.

Definition field {A} (zero : A) (v : option A) : A * option errors.error :=
  match v with
  | Some a => (a, None)
  | None => (zero, Some "no such field")
  end.

Definition getObserved (req : fnv1.RunFunctionRequest) : errors.error + XR :=
  match fnv1.req_Observed req ≫= st_Composite with
  | Some xr => inr xr
  | None => inl "no observed composite resource"
  end.

Definition getString (xr : XR) (path : string) : string * option errors.error :=
  if decide (path = "spec.id") then field "" (xr_id xr)
  else if decide (path = "spec.region") then field "" (xr_region xr)
  else if decide (path = "spec.providerConfigName") then
    field "" (xr_providerConfigName xr)
  else ("", Some "no such field").

Definition getInteger (xr : XR) (path : string) : Z * option errors.error :=
  if decide (path = "spec.count") then field 0 (xr_count xr)
  else (0, Some "no such field").

Definition getBool (xr : XR) (path : string) : bool * option errors.error :=
  if decide (path = "spec.includeGateway") then field false (xr_includeGateway xr)
  else (false, Some "no such field").

Definition composed (r : Object * string) : resource.DesiredComposed :=
  {| resource.Resource := r.1; resource.Ready := r.2 |}.

Definition getDesired (req : fnv1.RunFunctionRequest)
    : errors.error + gmap resource.Name resource.DesiredComposed :=
  match fnv1.req_Desired req with
  | Some st => inr (composed <$> st_Resources st)
  | None => inr ∅
  end.

Definition from (refused : list string) (o : Object) : errors.error + Object :=
  if decide (metav1.Name (metadata o) ∈ refused) then inl "did not find Go type in scheme"
  else inr o.

Definition wire (dc : resource.DesiredComposed) : Object * string :=
  (resource.Resource dc, resource.Ready dc).

Definition setDesired (st : option FakeState)
    (dcds : gmap resource.Name resource.DesiredComposed)
    : option FakeState * option errors.error :=
  (Some {| st_Composite := st ≫= st_Composite; st_Resources := wire <$> dcds |}, None).

#[local] Instance sdk (refused : list string) : Sdk := {|
  GetObservedCompositeResource := getObserved;
  GetString := getString;
  GetInteger := getInteger;
  GetBool := getBool;
  GetDesiredComposedResources := getDesired;
  From := from refused;
  SetDesiredComposedResources := setDesired
|}.

(** A request whose observed XR is [xr] and whose desired state holds the
    composed resources [resources]. *)
Definition request (xr : XR) (resources : gmap string (Object * string))
    : fnv1.RunFunctionRequest :=
  {| fnv1.req_Meta := None;
     fnv1.req_Observed := Some {| st_Composite := Some xr; st_Resources := ∅ |};
     fnv1.req_Desired := Some {| st_Composite := None; st_Resources := resources |};
     fnv1.req_Context := None |}.

(** A request with no observed composite resource. *)
Definition request_without_xr : fnv1.RunFunctionRequest :=
  {| fnv1.req_Meta := None;
     fnv1.req_Observed := None;
     fnv1.req_Desired := None;
     fnv1.req_Context := None |}.

(** The XR of the test of the repository. *)
Definition xr_code (count : Z) (includeGateway : bool) : XR :=
  {| xr_id := Some "code";
     xr_count := Some count;
     xr_includeGateway := Some includeGateway;
     xr_region := Some "eu-central-1";
     xr_providerConfigName := Some "default" |}.

(** The same XR with neither region nor provider configuration. *)
Definition xr_bare (count : Z) (includeGateway : bool) : XR :=
  {| xr_id := Some "code";
     xr_count := Some count;
     xr_includeGateway := Some includeGateway;
     xr_region := None;
     xr_providerConfigName := None |}.

(** Sample calls: the request of the test of the repository (one VPC with
    its gateway), two replicas with and without explicit region, no replica,
    a desired state that already holds an entry under a name of the
    function, and three replicas of which the gateway of index 1 cannot be
    converted. *)
Definition AddOneNetworks : fnv1.RunFunctionRequest := request (xr_code 1 true) ∅.
Definition two_networks : fnv1.RunFunctionRequest := request (xr_code 2 true) ∅.
Definition two_bare_networks : fnv1.RunFunctionRequest := request (xr_bare 2 true) ∅.
Definition no_network : fnv1.RunFunctionRequest := request (xr_code 0 true) ∅.

Definition earlier_entry : Object * string :=
  (ObjVPC (mkVPC "other" "us-east-1" "default" 7), "True").

Definition name_taken : fnv1.RunFunctionRequest :=
  request (xr_code 1 true) {[ "vpc-code-0" := earlier_entry ]}.

Definition beside_unrelated : fnv1.RunFunctionRequest :=
  request (xr_code 2 true) {[ "bucket" := earlier_entry ]}.

Definition three_networks : fnv1.RunFunctionRequest := request (xr_code 3 true) ∅.
Definition gateway_1_refused : Sdk := sdk ["gateway-code-1"].
Definition all_accepted : Sdk := sdk [].

End fake.

(** ** A second instance, whose reads and write-back can fail

    The instance above with two switches: [request.GetDesiredComposedResources]
    fails when [unreadable] is set, and [response.SetDesiredComposedResources]
    fails, leaving an empty map of resources in the response, when
    [unwritable] is set. *)

Module faulty.

#[local] Existing Instance fake.types.

Definition getDesired (unreadable : bool) (req : fnv1.RunFunctionRequest)
    : errors.error + gmap resource.Name resource.DesiredComposed :=
  if unreadable then inl "cannot unmarshal desired resource" else fake.getDesired req.

Definition setDesired (unwritable : bool) (st : option fake.FakeState)
    (dcds : gmap resource.Name resource.DesiredComposed)
    : option fake.FakeState * option errors.error :=
  if unwritable then
    (Some {| fake.st_Composite := st ≫= fake.st_Composite; fake.st_Resources := ∅ |},
     Some "cannot marshal desired resource")
  else fake.setDesired st dcds.

#[local] Instance sdk (unreadable unwritable : bool) (refused : list string) : Sdk := {|
  GetObservedCompositeResource := fake.getObserved;
  GetString := fake.getString;
  GetInteger := fake.getInteger;
  GetBool := fake.getBool;
  GetDesiredComposedResources := getDesired unreadable;
  From := fake.from refused;
  SetDesiredComposedResources := setDesired unwritable
|}.

Definition unreadable_desired : Sdk := sdk true false [].
Definition unwritable_desired : Sdk := sdk false true [].

(** No type at all is known to the scheme. *)
Definition nothing_converts : Sdk :=
  sdk false false
    ["vpc-code-0"; "vpc-code-1"; "vpc-code-2"; "gateway-code-0"; "gateway-code-1";
     "gateway-code-2"].

(** The scheme lacks the gateways. *)
Definition no_gateway_type : Sdk :=
  sdk false false ["gateway-code-0"; "gateway-code-1"; "gateway-code-2"].

(** The conversions of the VPC of index 1 and of the gateway of index 2
    both fail. *)
Definition two_refused : Sdk := sdk false false ["vpc-code-1"; "gateway-code-2"].

(** The desired state already holds the units of the XR of id ["prod"]. *)
Definition beside_prod : fnv1.RunFunctionRequest :=
  fake.request (fake.xr_code 2 true)
    {[ "vpc-prod-0" := fake.earlier_entry; "gateway-prod-0" := fake.earlier_entry ]}.

Definition negative_count : fnv1.RunFunctionRequest :=
  fake.request (fake.xr_code (-3) true) {[ "bucket" := fake.earlier_entry ]}.

Definition without_gateways : fnv1.RunFunctionRequest :=
  fake.request (fake.xr_code 2 false) ∅.

(** The XR of the test with no field at all: every getter fails. *)
Definition xr_empty : fake.XR :=
  {| fake.xr_id := None; fake.xr_count := None; fake.xr_includeGateway := None;
     fake.xr_region := None; fake.xr_providerConfigName := None |}.

(** A second call for the same XR, whose desired state is the map
    [resources] left by a first call. *)
Definition again (xr : fake.XR) (resources : gmap resource.Name resource.DesiredComposed)
    : fnv1.RunFunctionRequest :=
  fake.request xr (fake.wire <$> resources).

(** The map left by the call on two replicas, and the call that starts
    from it. *)
Definition first_result : gmap resource.Name resource.DesiredComposed :=
  default ∅ (out_desired (@RunFunction fake.types fake.all_accepted fake.two_networks)).

Definition second_call : fnv1.RunFunctionRequest :=
  again (fake.xr_code 2 true) first_result.

End faulty.

(** ** Dashes in a string *)

(** Whether the character ["-"] occurs in [s]. *)
Fixpoint has_dash (s : string) : bool :=
  match s with
  | EmptyString => false
  | String a s => bool_decide (String a EmptyString = "-") || has_dash s
  end.

(** * Properties *)

(** ** Names *)

Section names.

Lemma append_cons (a : Ascii.ascii) (s t : string) :
  String a s +:+ t = String a (s +:+ t).
Proof. reflexivity. Qed.

Lemma verb_d_inj (i j : Z) : fmt.verb_d i = fmt.verb_d j → i = j.
Proof. unfold fmt.verb_d. apply (inj pretty). Qed.

Lemma vpcName_inj (id : string) (i j : Z) : vpcName id i = vpcName id j → i = j.
Proof.
  unfold vpcName, fmt.verb_s. intros Heq.
  apply verb_d_inj.
  do 3 apply (inj (String.append _)) in Heq. exact Heq.
Qed.

Lemma gatewayName_inj (id : string) (i j : Z) :
  gatewayName id i = gatewayName id j → i = j.
Proof.
  unfold gatewayName, fmt.verb_s. intros Heq.
  apply verb_d_inj.
  do 3 apply (inj (String.append _)) in Heq. exact Heq.
Qed.

Lemma vpcName_gatewayName (id id' : string) (i j : Z) :
  vpcName id i ≠ gatewayName id' j.
Proof.
  unfold vpcName, gatewayName. rewrite !append_cons. discriminate.
Qed.

Lemma gatewayName_vpcName (id id' : string) (i j : Z) :
  gatewayName id i ≠ vpcName id' j.
Proof. intros Heq. symmetry in Heq. by apply vpcName_gatewayName in Heq. Qed.

#[local] Instance vpcName_Inj (id : string) : Inj (=) (=) (vpcName id).
Proof. intros i j. apply vpcName_inj. Qed.

#[local] Instance gatewayName_Inj (id : string) : Inj (=) (=) (gatewayName id).
Proof. intros i j. apply gatewayName_inj. Qed.

Lemma elem_of_range (count i : Z) : i ∈ range count ↔ 0 ≤ i < count.
Proof. unfold range. rewrite elem_of_seqZ. lia. Qed.

Lemma NoDup_range (count : Z) : NoDup (range count).
Proof. apply NoDup_seqZ. Qed.

Lemma length_range (count : Z) : length (range count) = Z.to_nat count.
Proof. apply length_seqZ. Qed.

Lemma range_split (count i : Z) :
  0 ≤ i < count →
  range count = range i ++ i :: seqZ (i + 1) (count - i - 1).
Proof.
  intros Hi. unfold range.
  replace count with (i + (count - i)) at 1 by lia.
  rewrite seqZ_app by lia. f_equal.
  rewrite Z.add_0_l, seqZ_cons by lia.
  by rewrite <-Z.add_1_r, <-Z.sub_1_r.
Qed.

Lemma NoDup_names (id : string) (indices : list Z) :
  NoDup indices →
  NoDup ((vpcName id <$> indices) ++ (gatewayName id <$> indices)).
Proof.
  intros Hnd. apply NoDup_app. split_and!.
  - by apply (NoDup_fmap_2 _).
  - intros x [i [-> _]]%list_elem_of_fmap [j [Heq _]]%list_elem_of_fmap.
    by apply vpcName_gatewayName in Heq.
  - by apply (NoDup_fmap_2 _).
Qed.

End names.

(** ** The loop *)

Section loop_facts.
Context `{!SdkTypes, !Sdk}.
Variables (id : string) (includeGateway : bool) (region providerConfigName : string).

Abbreviation desired_map := (gmap string resource.DesiredComposed).
Abbreviation vpc_at i := (ObjVPC (mkVPC id region providerConfigName i)).
Abbreviation gateway_at i := (ObjInternetGateway (mkGateway id region providerConfigName i)).
Abbreviation body := (iteration id includeGateway region providerConfigName).
Abbreviation run := (loop id includeGateway region providerConfigName).

(** The four ways through the loop body. *)
Lemma iteration_inv (i : Z) (d d' : desired_map) (e : option errors.error) :
  body i d = (d', e) →
  (∃ err, From (vpc_at i) = inl err ∧ d' = d ∧
      e = Some (errors.Wrapf err "cannot convert *v1beta1.VPC to *composed.Unstructured"))
  ∨ (∃ dcVPC, From (vpc_at i) = inr dcVPC ∧ includeGateway = false ∧ e = None ∧
      d' = <[vpcName id i := {| resource.Resource := dcVPC; resource.Ready := "" |}]> d)
  ∨ (∃ dcVPC err, From (vpc_at i) = inr dcVPC ∧ includeGateway = true ∧
      From (gateway_at i) = inl err ∧
      e = Some (errors.Wrapf err
                  "cannot convert *v1beta1.InternetGateway to *composed.Unstructured") ∧
      d' = <[vpcName id i := {| resource.Resource := dcVPC; resource.Ready := "" |}]> d)
  ∨ (∃ dcVPC dcGateway, From (vpc_at i) = inr dcVPC ∧ includeGateway = true ∧
      From (gateway_at i) = inr dcGateway ∧ e = None ∧
      d' = <[gatewayName id i :=
               {| resource.Resource := dcGateway; resource.Ready := "" |}]>
             (<[vpcName id i :=
                  {| resource.Resource := dcVPC; resource.Ready := "" |}]> d)).
Proof.
  unfold iteration. intros Hbody.
  destruct (From (vpc_at i)) as [err|dcVPC] eqn:HV.
  - left. exists err. by simplify_eq.
  - destruct includeGateway.
    + destruct (From (gateway_at i)) as [err|dcGateway] eqn:HG; simplify_eq.
      * right; right; left. by exists dcVPC, err.
      * right; right; right. by exists dcVPC, dcGateway.
    + right; left. exists dcVPC. by simplify_eq.
Qed.

(** The body writes under no other key than its two names. *)
Lemma iteration_lookup_ne (i : Z) (d d' : desired_map) e (k : string) :
  body i d = (d', e) →
  k ≠ vpcName id i → k ≠ gatewayName id i →
  d' !! k = d !! k.
Proof.
  intros Hbody Hv Hg.
  apply iteration_inv in Hbody
    as [(?&?&->&?)|[(?&?&?&?&->)|[(?&?&?&?&?&?&->)|(?&?&?&?&?&?&->)]]];
    by rewrite ?lookup_insert_ne.
Qed.

(** Without gateways it writes under the VPC name only. *)
Lemma iteration_lookup_ne_vpc (i : Z) (d d' : desired_map) e (k : string) :
  includeGateway = false →
  body i d = (d', e) →
  k ≠ vpcName id i →
  d' !! k = d !! k.
Proof.
  intros Hno Hbody Hv.
  apply iteration_inv in Hbody
    as [(?&?&->&?)|[(?&?&?&?&->)|[(?&?&?&?&?&?&->)|(?&?&?&?&?&?&->)]]];
    try congruence; by rewrite ?lookup_insert_ne.
Qed.

(** The body deletes nothing. *)
Lemma iteration_keeps (i : Z) (d d' : desired_map) e (k : string) :
  body i d = (d', e) → is_Some (d !! k) → is_Some (d' !! k).
Proof.
  intros Hbody Hk.
  apply iteration_inv in Hbody
    as [(?&?&->&?)|[(?&?&?&?&->)|[(?&?&?&?&?&?&->)|(?&?&?&?&?&?&->)]]];
    rewrite ?lookup_insert_is_Some'; auto.
Qed.

(** A body that ends without error has stored its VPC and, when gateways are
    requested, its gateway. *)
Lemma iteration_ok_stores (i : Z) (d d' : desired_map) :
  body i d = (d', None) →
  stores d' (vpcName id i) (vpc_at i) ∧
  (includeGateway = true → stores d' (gatewayName id i) (gateway_at i)).
Proof.
  intros Hbody.
  apply iteration_inv in Hbody
    as [(?&?&?&?)|[(dcV&HV&Hno&_&->)|[(?&?&?&?&?&?&?)|(dcV&dcG&HV&Hyes&HG&_&->)]]];
    try discriminate.
  - split; [|congruence]. exists dcV. by rewrite lookup_insert_eq.
  - split; [|intros _].
    + exists dcV. split; [done|].
      rewrite lookup_insert_ne by apply gatewayName_vpcName.
      by rewrite lookup_insert_eq.
    + exists dcG. by rewrite lookup_insert_eq.
Qed.

Lemma loop_nil (d : desired_map) : run [] d = (d, None).
Proof. reflexivity. Qed.

Lemma loop_cons (i : Z) (indices : list Z) (d : desired_map) :
  run (i :: indices) d =
  match body i d with
  | (d1, Some err) => (d1, Some err)
  | (d1, None) => run indices d1
  end.
Proof. reflexivity. Qed.

Lemma loop_app (l1 l2 : list Z) (d : desired_map) :
  run (l1 ++ l2) d =
  match run l1 d with
  | (d1, Some err) => (d1, Some err)
  | (d1, None) => run l2 d1
  end.
Proof.
  revert d. induction l1 as [|i l1 IH]; intros d; [done|].
  rewrite <-app_comm_cons, !loop_cons.
  destruct (body i d) as [d1 [err|]]; [done|]. apply IH.
Qed.

(** The loop writes under no other key than the names of its indices. *)
Lemma loop_lookup_ne (indices : list Z) (d d' : desired_map) e (k : string) :
  run indices d = (d', e) →
  (∀ i, i ∈ indices → k ≠ vpcName id i ∧ k ≠ gatewayName id i) →
  d' !! k = d !! k.
Proof.
  revert d. induction indices as [|i indices IH]; intros d Hrun Hk.
  - by simplify_eq/=.
  - rewrite loop_cons in Hrun.
    destruct (body i d) as [d1 o] eqn:Hbody.
    assert (d1 !! k = d !! k) as <-.
    { eapply iteration_lookup_ne; [done|..]; apply Hk; left. }
    destruct o as [err|]; [by simplify_eq|].
    apply IH; [done|]. intros j Hj. apply Hk. by right.
Qed.

Lemma loop_lookup_ne_vpc (indices : list Z) (d d' : desired_map) e (k : string) :
  includeGateway = false →
  run indices d = (d', e) →
  (∀ i, i ∈ indices → k ≠ vpcName id i) →
  d' !! k = d !! k.
Proof.
  intros Hno. revert d. induction indices as [|i indices IH]; intros d Hrun Hk.
  - by simplify_eq/=.
  - rewrite loop_cons in Hrun.
    destruct (body i d) as [d1 o] eqn:Hbody.
    assert (d1 !! k = d !! k) as <-.
    { eapply iteration_lookup_ne_vpc; [done..|]. apply Hk; left. }
    destruct o as [err|]; [by simplify_eq|].
    apply IH; [done|]. intros j Hj. apply Hk. by right.
Qed.

(** The loop deletes nothing. *)
Lemma loop_keeps (indices : list Z) (d d' : desired_map) e (k : string) :
  run indices d = (d', e) → is_Some (d !! k) → is_Some (d' !! k).
Proof.
  revert d. induction indices as [|i indices IH]; intros d Hrun Hk.
  - by simplify_eq/=.
  - rewrite loop_cons in Hrun.
    destruct (body i d) as [d1 o] eqn:Hbody.
    assert (is_Some (d1 !! k)) by (by eapply iteration_keeps).
    destruct o as [err|]; [by simplify_eq|]. by eapply IH.
Qed.

(** After a loop without error every index has its entries. *)
Lemma loop_ok_stores (indices : list Z) (d d' : desired_map) (i : Z) :
  NoDup indices →
  run indices d = (d', None) →
  i ∈ indices →
  stores d' (vpcName id i) (vpc_at i) ∧
  (includeGateway = true → stores d' (gatewayName id i) (gateway_at i)).
Proof.
  intros Hnd. revert d.
  induction Hnd as [|j indices Hj Hnd IH]; intros d Hrun Hi.
  - by apply elem_of_nil in Hi.
  - rewrite loop_cons in Hrun.
    destruct (body j d) as [d1 [err|]] eqn:Hbody; [done|].
    apply elem_of_cons in Hi as [->|Hi]; [|by eapply IH].
    apply iteration_ok_stores in Hbody as [(dcV&HV&HdV) HG].
    assert (∀ i, i ∈ indices → j ≠ i) as Hne by (intros i Hi ->; done).
    split.
    + exists dcV. split; [done|]. rewrite <-HdV.
      eapply loop_lookup_ne; [done|]. intros i Hi. split.
      * intros Heq%vpcName_inj. by eapply Hne.
      * apply vpcName_gatewayName.
    + intros Hyes. destruct (HG Hyes) as (dcG&HGc&HdG).
      exists dcG. split; [done|]. rewrite <-HdG.
      eapply loop_lookup_ne; [done|]. intros i Hi. split.
      * apply gatewayName_vpcName.
      * intros Heq%gatewayName_inj. by eapply Hne.
Qed.

(** The loop ends without error exactly when every conversion succeeds. *)
Lemma loop_ok_converts (indices : list Z) (d d' : desired_map) (i : Z) :
  run indices d = (d', None) →
  i ∈ indices →
  converts (vpc_at i) ∧ (includeGateway = true → converts (gateway_at i)).
Proof.
  revert d. induction indices as [|j indices IH]; intros d Hrun Hi.
  - by apply elem_of_nil in Hi.
  - rewrite loop_cons in Hrun.
    destruct (body j d) as [d1 [err|]] eqn:Hbody; [done|].
    apply elem_of_cons in Hi as [->|Hi]; [|by eapply IH].
    apply iteration_ok_stores in Hbody as [(dcV&HV&_) HG].
    split; [by exists dcV|]. intros Hyes.
    destruct (HG Hyes) as (dcG&?&_). by exists dcG.
Qed.

Lemma converts_loop_ok (indices : list Z) (d : desired_map) :
  (∀ i, i ∈ indices →
     converts (vpc_at i) ∧ (includeGateway = true → converts (gateway_at i))) →
  ∃ d', run indices d = (d', None).
Proof.
  revert d. induction indices as [|j indices IH]; intros d Hall.
  - by exists d.
  - rewrite loop_cons.
    destruct (Hall j) as [[dcV HV] HG]; [left|].
    assert (∃ d1, body j d = (d1, None)) as [d1 ->].
    { unfold iteration. rewrite HV.
      destruct includeGateway; [|by eexists].
      destruct HG as [dcG ->]; [done|]. by eexists. }
    apply IH. intros i Hi. apply Hall. by right.
Qed.



End loop_facts.

(** ** The function as a whole *)

Section run_facts.
Context `{!SdkTypes, !Sdk}.

Abbreviation desired_map := (gmap string resource.DesiredComposed).

Lemma is_fatal_To (req : fnv1.RunFunctionRequest) (ttl : time.Duration) :
  is_fatal (response.To req ttl) = false.
Proof. reflexivity. Qed.

Lemma is_fatal_Fatal (rsp : fnv1.RunFunctionResponse) (err : errors.error) :
  is_fatal (response.Fatal rsp err) = true.
Proof.
  unfold is_fatal, response.Fatal; simpl.
  rewrite existsb_app; simpl. apply orb_true_iff. right. reflexivity.
Qed.

Lemma is_fatal_withDesired (rsp : fnv1.RunFunctionResponse) (st : option State) :
  is_fatal (response.withDesired rsp st) = is_fatal rsp.
Proof. reflexivity. Qed.

Lemma Wrapf_nonempty (err : errors.error) (msg : string) : errors.Wrapf err msg ≠ "".
Proof.
  unfold errors.Wrapf. induction msg as [|a msg _]; [|by rewrite append_cons].
  by rewrite !append_cons.
Qed.

(** The shape of a call that got past the two reads of the request. *)
Lemma RunFunction_loop (req : fnv1.RunFunctionRequest) (oxr : Composite)
    (d0 : desired_map) :
  GetObservedCompositeResource req = inr oxr →
  GetDesiredComposedResources req = inr d0 →
  RunFunction req =
  let rsp := response.To req response.DefaultTTL in
  match loop_of oxr (range (spec_count oxr)) d0 with
  | (desired, Some err) =>
      {| out_rsp := response.Fatal rsp err; out_err := None;
         out_desired := Some desired |}
  | (desired, None) =>
      match SetDesiredComposedResources (fnv1.req_Desired req) desired with
      | (state, Some err) =>
          {| out_rsp :=
               response.Fatal (response.withDesired rsp state)
                 (errors.Wrapf err
                    "cannot set desired composed resources in *v1.RunFunctionResponse");
             out_err := None; out_desired := Some desired |}
      | (state, None) =>
          {| out_rsp := response.withDesired rsp state; out_err := None;
             out_desired := Some desired |}
      end
  end.
Proof. intros Hoxr Hd0. unfold RunFunction. by rewrite Hoxr, Hd0. Qed.

(** A call whose response is not fatal went through every step. *)
Lemma RunFunction_ok_inv (req : fnv1.RunFunctionRequest) :
  is_fatal (out_rsp (RunFunction req)) = false →
  ∃ oxr d0 final state,
    GetObservedCompositeResource req = inr oxr ∧
    GetDesiredComposedResources req = inr d0 ∧
    loop_of oxr (range (spec_count oxr)) d0 = (final, None) ∧
    SetDesiredComposedResources (fnv1.req_Desired req) final = (state, None) ∧
    RunFunction req =
      {| out_rsp := response.withDesired (response.To req response.DefaultTTL) state;
         out_err := None;
         out_desired := Some final |}.
Proof.
  destruct (GetObservedCompositeResource req) as [err|oxr] eqn:Hoxr.
  { unfold RunFunction. rewrite Hoxr; simpl. by rewrite is_fatal_Fatal. }
  destruct (GetDesiredComposedResources req) as [err|d0] eqn:Hd0.
  { unfold RunFunction. rewrite Hoxr, Hd0; simpl. by rewrite is_fatal_Fatal. }
  rewrite (RunFunction_loop req oxr d0 Hoxr Hd0); simpl.
  destruct (loop_of oxr _ d0) as [final [err|]] eqn:Hloop; simpl.
  { by rewrite is_fatal_Fatal. }
  destruct (SetDesiredComposedResources _ final) as [state [err|]] eqn:Hset; simpl.
  { by rewrite is_fatal_Fatal. }
  intros _. by exists oxr, d0, final, state.
Qed.

(** What the map [desired] holds when the call returns, whatever the
    response: nothing but the initial entries and the entries of the loop. *)
Lemma RunFunction_desired_inv (req : fnv1.RunFunctionRequest) (final : desired_map) :
  out_desired (RunFunction req) = Some final →
  ∃ oxr d0 e,
    GetObservedCompositeResource req = inr oxr ∧
    GetDesiredComposedResources req = inr d0 ∧
    loop_of oxr (range (spec_count oxr)) d0 = (final, e).
Proof.
  destruct (GetObservedCompositeResource req) as [err|oxr] eqn:Hoxr.
  { unfold RunFunction. by rewrite Hoxr. }
  destruct (GetDesiredComposedResources req) as [err|d0] eqn:Hd0.
  { unfold RunFunction. by rewrite Hoxr, Hd0. }
  rewrite (RunFunction_loop req oxr d0 Hoxr Hd0); simpl.
  destruct (loop_of oxr _ d0) as [d [err|]] eqn:Hloop; simpl.
  { intros [= ->]. by exists oxr, d0, (Some err). }
  destruct (SetDesiredComposedResources _ d) as [state [err|]]; simpl;
    intros [= ->]; by exists oxr, d0, None.
Qed.

(** After a call whose response is not fatal, the map holds the converted
    VPC of every index and, with gateways, its converted gateway. *)
Lemma RunFunction_ok_stores (req : fnv1.RunFunctionRequest) (oxr : Composite)
    (final : desired_map) (i : Z) :
  GetObservedCompositeResource req = inr oxr →
  is_fatal (out_rsp (RunFunction req)) = false →
  out_desired (RunFunction req) = Some final →
  0 ≤ i < spec_count oxr →
  stores final (vpcName (spec_id oxr) i) (vpc_of oxr i) ∧
  (spec_includeGateway oxr = true →
   stores final (gatewayName (spec_id oxr) i) (gateway_of oxr i)).
Proof.
  intros Hoxr (oxr'&d0&final'&state&Hoxr'&Hd0&Hloop&Hset&Hrun)%RunFunction_ok_inv.
  rewrite Hrun; simpl. intros [= ->] Hi.
  assert (oxr' = oxr) as -> by congruence.
  eapply loop_ok_stores; [apply NoDup_range|exact Hloop|by apply elem_of_range].
Qed.

(** The upsert replaces what the map held under a name of the loop: an
    initial entry under the VPC name of an index, with a readiness other
    than the zero value, is no longer there after a call that is not
    fatal. *)
Lemma RunFunction_ok_replaces (req : fnv1.RunFunctionRequest) (oxr : Composite)
    (d0 final : desired_map) (i : Z) (v : resource.DesiredComposed) :
  GetObservedCompositeResource req = inr oxr →
  GetDesiredComposedResources req = inr d0 →
  is_fatal (out_rsp (RunFunction req)) = false →
  out_desired (RunFunction req) = Some final →
  0 ≤ i < spec_count oxr →
  d0 !! vpcName (spec_id oxr) i = Some v →
  resource.Ready v ≠ "" →
  final !! vpcName (spec_id oxr) i ≠ Some v.
Proof.
  intros Hoxr Hd0 Hok Hfinal Hi Hv Hready.
  destruct (RunFunction_ok_stores req oxr final i Hoxr Hok Hfinal Hi)
    as [(dc&_&->) _].
  intros [= <-]. by apply Hready.
Qed.

End run_facts.

(** ** The claims of the specification *)

Section claims.
Context `{!SdkTypes, !Sdk}.

Abbreviation desired_map := (gmap string resource.DesiredComposed).


(** C6.  When the observed composite resource cannot be read, the response
    is the initial response with one fatal result added, whose message is
    not empty; the desired state of the response is that of the request and
    the map of desired resources is never obtained, so nothing is added. *)
Theorem observed_xr_unreadable (req : fnv1.RunFunctionRequest) (err : errors.error) :
  GetObservedCompositeResource req = inl err →
  let out := RunFunction req in
  is_fatal (out_rsp out) = true ∧
  fatal_messages (out_rsp out) = [errors.Wrapf err "cannot get desired XR"] ∧
  (∀ msg, msg ∈ fatal_messages (out_rsp out) → msg ≠ "") ∧
  fnv1.rsp_Desired (out_rsp out) = fnv1.req_Desired req ∧
  out_desired out = None ∧
  out_err out = None.
Proof.
  intros Hoxr out. subst out. unfold RunFunction. rewrite Hoxr; simpl.
  assert (fatal_messages
            (response.Fatal (response.To req response.DefaultTTL)
               (errors.Wrapf err "cannot get desired XR")) =
          [errors.Wrapf err "cannot get desired XR"]) as Hmsgs by reflexivity.
  split_and!; [apply is_fatal_Fatal|exact Hmsgs| |done..].
  rewrite Hmsgs. intros msg ->%list_elem_of_singleton. apply Wrapf_nonempty.
Qed.

(** C7.  Whatever the request and whatever the outcome, the map of desired
    resources keeps, under every key that is not [vpc-<id>-<i>] or
    [gateway-<id>-<i>] for an index [i] of the loop, the value it had, and
    every key it had is still present: the loop only inserts under its own
    names.  When the map was never obtained the desired state of the
    response is that of the request. *)
Theorem unrelated_keys_untouched (req : fnv1.RunFunctionRequest) :
  match out_desired (RunFunction req) with
  | Some final =>
      ∃ oxr d0,
        GetObservedCompositeResource req = inr oxr ∧
        GetDesiredComposedResources req = inr d0 ∧
        (∀ k : string,
           (∀ i, 0 ≤ i < spec_count oxr →
              k ≠ vpcName (spec_id oxr) i ∧ k ≠ gatewayName (spec_id oxr) i) →
           final !! k = d0 !! k) ∧
        (∀ k : string, is_Some (d0 !! k) → is_Some (final !! k)) ∧
        (spec_includeGateway oxr = false →
         ∀ k : string,
           (∀ i, 0 ≤ i < spec_count oxr → k ≠ vpcName (spec_id oxr) i) →
           final !! k = d0 !! k)
  | None =>
      fnv1.rsp_Desired (out_rsp (RunFunction req)) = fnv1.req_Desired req
  end.
Proof.
  destruct (out_desired (RunFunction req)) as [final|] eqn:Hout.
  - apply RunFunction_desired_inv in Hout as (oxr&d0&e&Hoxr&Hd0&Hloop).
    exists oxr, d0. split_and!; try done.
    + intros k Hk. eapply loop_lookup_ne; [exact Hloop|].
      intros i Hi%elem_of_range. by apply Hk.
    + intros k. by eapply loop_keeps.
    + intros Hno k Hk. eapply loop_lookup_ne_vpc; [exact Hno|exact Hloop|].
      intros i Hi%elem_of_range. by apply Hk.
  - revert Hout. unfold RunFunction.
    destruct (GetObservedCompositeResource req) as [err|oxr]; [done|].
    destruct (GetDesiredComposedResources req) as [err|d0]; [done|].
    destruct (loop _ _ _ _ _ d0) as [d [err|]]; [done|].
    by destruct (SetDesiredComposedResources _ d) as [state [err|]].
Qed.

(** C8.  When the conversion of the VPC or of the gateway fails at index
    [i], after the conversions of all earlier indices succeeded, the call
    returns at once with a fatal response: the map of desired resources is
    the one left by the iterations before [i] (with the VPC of index [i]
    when it is the gateway that failed), the entries of the earlier indices
    are still in it, no name of a later index has been written, the desired
    state of the response is that of the request, and the response is not a
    success. *)
Theorem conversion_failure_aborts (req : fnv1.RunFunctionRequest) (oxr : Composite)
    (d0 : desired_map) (i : Z) (err : errors.error) :
  GetObservedCompositeResource req = inr oxr →
  GetDesiredComposedResources req = inr d0 →
  0 ≤ i < spec_count oxr →
  (∀ j, 0 ≤ j < i →
     converts (vpc_of oxr j) ∧
     (spec_includeGateway oxr = true → converts (gateway_of oxr j))) →
  (From (vpc_of oxr i) = inl err ∨
   (converts (vpc_of oxr i) ∧ spec_includeGateway oxr = true ∧
    From (gateway_of oxr i) = inl err)) →
  let out := RunFunction req in
  let id := spec_id oxr in
  ∃ before final,
    loop_of oxr (range i) d0 = (before, None) ∧
    out_desired out = Some final ∧
    (From (vpc_of oxr i) = inl err → final = before) ∧
    (∀ dcVPC, From (vpc_of oxr i) = inr dcVPC →
       final =
       <[vpcName id i := {| resource.Resource := dcVPC; resource.Ready := "" |}]> before) ∧
    (∀ j, 0 ≤ j < i →
       stores final (vpcName id j) (vpc_of oxr j) ∧
       (spec_includeGateway oxr = true → stores final (gatewayName id j) (gateway_of oxr j))) ∧
    (∀ j, i < j →
       final !! vpcName id j = d0 !! vpcName id j ∧
       final !! gatewayName id j = d0 !! gatewayName id j) ∧
    final !! gatewayName id i = d0 !! gatewayName id i ∧
    is_fatal (out_rsp out) = true ∧
    (∃ msg, out_rsp out =
            response.Fatal (response.To req response.DefaultTTL) (errors.Wrapf err msg)) ∧
    fnv1.rsp_Desired (out_rsp out) = fnv1.req_Desired req ∧
    out_err out = None.
Proof.
  intros Hoxr Hd0 Hi Hbefore Hfail out id. subst out.
  destruct (converts_loop_ok (spec_id oxr) (spec_includeGateway oxr) (spec_region oxr)
              (spec_providerConfigName oxr) (range i) d0) as [before Hpre].
  { intros j Hj%elem_of_range. by apply Hbefore. }
  fold (loop_of oxr) in Hpre.
  assert (∃ final msg,
            iteration (spec_id oxr) (spec_includeGateway oxr) (spec_region oxr)
              (spec_providerConfigName oxr) i before = (final, Some (errors.Wrapf err msg)) ∧
            (From (vpc_of oxr i) = inl err → final = before) ∧
            (∀ dcVPC, From (vpc_of oxr i) = inr dcVPC →
               final =
               <[vpcName id i := {| resource.Resource := dcVPC; resource.Ready := "" |}]>
                 before)) as (final & msg & Hbody & HfinalV & HfinalG).
  { unfold iteration. fold (vpc_of oxr i) (gateway_of oxr i).
    destruct Hfail as [HV|([dcV HV]&Hyes&HG)].
    - rewrite HV. eexists _, _. split; [done|]. split; [done|intros ? [=]].
    - rewrite HV, Hyes, HG. eexists _, _. split; [done|].
      split; [intros [=]|by intros ? [= <-]]. }
  assert (loop_of oxr (range (spec_count oxr)) d0 = (final, Some (errors.Wrapf err msg)))
    as Hloop.
  { rewrite (range_split _ i) by done. unfold loop_of in *.
    by rewrite loop_app, Hpre, loop_cons, Hbody. }
  assert (∀ k, k ≠ vpcName id i → final !! k = before !! k) as Hother.
  { intros k Hk. destruct (From (vpc_of oxr i)) as [e|dcV] eqn:HV.
    - assert (e = err) as -> by (destruct Hfail as [?|([? ?]&_)]; congruence).
      by rewrite (HfinalV eq_refl).
    - rewrite (HfinalG dcV eq_refl). by apply lookup_insert_ne. }
  exists before, final.
  rewrite (RunFunction_loop req oxr d0 Hoxr Hd0); simpl. rewrite Hloop; simpl.
  split_and!;
    [done|done|done|done| | | |apply is_fatal_Fatal|by exists msg|done|done].
  - intros j Hj.
    destruct (loop_ok_stores _ _ _ _ (range i) d0 before j (NoDup_range i) Hpre)
      as [(dcV&HcV&HdV) HG]; [by apply elem_of_range|].
    split.
    + exists dcV. split; [done|]. rewrite Hother; [done|].
      intros ?%vpcName_inj. lia.
    + intros Hyes. destruct (HG Hyes) as (dcG&HcG&HdG).
      exists dcG. split; [done|]. rewrite Hother; [done|].
      apply gatewayName_vpcName.
  - intros j Hj.
    assert (∀ k, k = vpcName id j ∨ k = gatewayName id j → before !! k = d0 !! k) as Hk.
    { intros k Hk. eapply loop_lookup_ne; [exact Hpre|].
      intros l Hl%elem_of_range. fold id.
      destruct Hk as [->| ->]; split;
        first [intros ?%vpcName_inj; lia | intros ?%gatewayName_inj; lia
              | apply vpcName_gatewayName | apply gatewayName_vpcName]. }
    split.
    + rewrite Hother by (intros ?%vpcName_inj; lia). apply Hk. by left.
    + rewrite Hother by apply gatewayName_vpcName.
      apply Hk. by right.
  - rewrite Hother by apply gatewayName_vpcName.
    eapply loop_lookup_ne; [exact Hpre|].
    intros l Hl%elem_of_range. fold id. split.
    + apply gatewayName_vpcName.
    + intros ?%gatewayName_inj. lia.
Qed.


(** C2.  The name of the VPC of index [i] is [vpc-<id>-<i>] and that of its
    gateway is [gateway-<id>-<i>], with [i] in decimal; for a fixed id both
    are injective in the index, no VPC name is a gateway name, so the names
    of one invocation are pairwise distinct; after a call that is not fatal
    each unit is stored under its own name; and the outcome is a function of
    the request, so that equal requests give equal names. *)
Theorem names_injective_and_stable :
  (∀ id i,
     vpcName id i = "vpc-" +:+ id +:+ "-" +:+ pretty i ∧
     gatewayName id i = "gateway-" +:+ id +:+ "-" +:+ pretty i) ∧
  (∀ id i j, vpcName id i = vpcName id j → i = j) ∧
  (∀ id i j, gatewayName id i = gatewayName id j → i = j) ∧
  (∀ id id' i j, vpcName id i ≠ gatewayName id' j) ∧
  (∀ id includeGateway count,
     NoDup (vpcNames id count ++ gatewayNames id includeGateway count)) ∧
  (∀ req oxr final i,
     GetObservedCompositeResource req = inr oxr →
     is_fatal (out_rsp (RunFunction req)) = false →
     out_desired (RunFunction req) = Some final →
     0 ≤ i < spec_count oxr →
     metav1.Name (metadata (vpc_of oxr i)) = vpcName (spec_id oxr) i ∧
     stores final (vpcName (spec_id oxr) i) (vpc_of oxr i) ∧
     (spec_includeGateway oxr = true →
      metav1.Name (metadata (gateway_of oxr i)) = gatewayName (spec_id oxr) i ∧
      stores final (gatewayName (spec_id oxr) i) (gateway_of oxr i))) ∧
  (∀ req req' : fnv1.RunFunctionRequest, req = req' → RunFunction req = RunFunction req').
Proof.
  split_and!.
  - done.
  - apply vpcName_inj.
  - apply gatewayName_inj.
  - apply vpcName_gatewayName.
  - intros id includeGateway count. unfold vpcNames, gatewayNames.
    destruct includeGateway.
    + apply NoDup_names, NoDup_range.
    + rewrite app_nil_r. apply (NoDup_fmap_2 _), NoDup_range.
  - intros req oxr final i Hoxr Hok Hfinal Hi.
    destruct (RunFunction_ok_stores req oxr final i Hoxr Hok Hfinal Hi) as [HV HG].
    split; [done|]. split; [done|]. intros Hyes. split; [done|]. by apply HG.
  - by intros req req' ->.
Qed.

(** C3.  The gateway built at any index selects its VPC by label: its
    selector has [matchControllerRef] true and the single match label
    [vpc-id], whose value is the name of the VPC of the same index, and it
    carries neither a VPC id nor a reference by name; after a call that is
    not fatal it is this gateway that is stored under the gateway name. *)
Theorem gateway_selects_vpc_by_label :
  (∀ id region providerConfigName i,
     let gateway := mkGateway id region providerConfigName i in
     let vpc := mkVPC id region providerConfigName i in
     let forProvider := awsv1beta1.igws_ForProvider (awsv1beta1.igw_Spec gateway) in
     awsv1beta1.igwp_VPCIDSelector forProvider =
       Some {| v1.MatchLabels :=
                 {[ "networks.meta.fn.crossplane.io/vpc-id" :=
                      metav1.Name (awsv1beta1.vpc_ObjectMeta vpc) ]};
               v1.MatchControllerRef := Some true |} ∧
     metav1.Name (awsv1beta1.vpc_ObjectMeta vpc) = vpcName id i ∧
     awsv1beta1.igwp_VPCID forProvider = None ∧
     awsv1beta1.igwp_VPCIDRef forProvider = None) ∧
  (∀ req oxr final i,
     GetObservedCompositeResource req = inr oxr →
     is_fatal (out_rsp (RunFunction req)) = false →
     out_desired (RunFunction req) = Some final →
     spec_includeGateway oxr = true →
     0 ≤ i < spec_count oxr →
     stores final (gatewayName (spec_id oxr) i)
       (ObjInternetGateway
          (mkGateway (spec_id oxr) (spec_region oxr) (spec_providerConfigName oxr) i))).
Proof.
  split.
  - done.
  - intros req oxr final i Hoxr Hok Hfinal Hyes Hi.
    by apply (RunFunction_ok_stores req oxr final i Hoxr Hok Hfinal Hi).
Qed.

(** C4.  The region of every unit built for an XR is ["eu-central-1"] when
    the region read from the XR is empty and the region read otherwise; the
    name of its provider configuration is ["default"] when the name read is
    empty and the name read otherwise; after a call that is not fatal these
    units are the ones stored. *)
Theorem defaults_only_when_empty :
  (∀ oxr i,
     let region := (GetString oxr "spec.region").1 in
     let providerConfigName := (GetString oxr "spec.providerConfigName").1 in
     (region = "" →
      forProvider_region (vpc_of oxr i) = Some "eu-central-1" ∧
      forProvider_region (gateway_of oxr i) = Some "eu-central-1") ∧
     (region ≠ "" →
      forProvider_region (vpc_of oxr i) = Some region ∧
      forProvider_region (gateway_of oxr i) = Some region) ∧
     (providerConfigName = "" →
      providerConfigRef (vpc_of oxr i) = Some {| v1.Name := "default" |} ∧
      providerConfigRef (gateway_of oxr i) = Some {| v1.Name := "default" |}) ∧
     (providerConfigName ≠ "" →
      providerConfigRef (vpc_of oxr i) = Some {| v1.Name := providerConfigName |} ∧
      providerConfigRef (gateway_of oxr i) = Some {| v1.Name := providerConfigName |})) ∧
  (∀ req oxr final i,
     GetObservedCompositeResource req = inr oxr →
     is_fatal (out_rsp (RunFunction req)) = false →
     out_desired (RunFunction req) = Some final →
     0 ≤ i < spec_count oxr →
     stores final (vpcName (spec_id oxr) i) (vpc_of oxr i) ∧
     (spec_includeGateway oxr = true →
      stores final (gatewayName (spec_id oxr) i) (gateway_of oxr i))).
Proof.
  split.
  - intros oxr i region providerConfigName.
    unfold vpc_of, gateway_of, spec_region, spec_providerConfigName; simpl.
    fold region providerConfigName.
    split_and!; intros Hcase; by rewrite ?decide_True, ?decide_False by done.
  - apply RunFunction_ok_stores.
Qed.

(** C5.  Every unit carries the label [network-id] with the id as value;
    a VPC carries besides the label [vpc-id] with its own name as value and
    no other label; a gateway carries no other label than [network-id];
    after a call that is not fatal these units are the ones stored. *)
Theorem correlation_labels :
  (∀ id region providerConfigName i,
     let vpc := awsv1beta1.vpc_ObjectMeta (mkVPC id region providerConfigName i) in
     let gateway := awsv1beta1.igw_ObjectMeta (mkGateway id region providerConfigName i) in
     metav1.Labels vpc !! "networks.meta.fn.crossplane.io/network-id" = Some id ∧
     metav1.Labels vpc !! "networks.meta.fn.crossplane.io/vpc-id" = Some (metav1.Name vpc) ∧
     metav1.Name vpc = vpcName id i ∧
     dom (metav1.Labels vpc) =
       {[ "networks.meta.fn.crossplane.io/network-id";
          "networks.meta.fn.crossplane.io/vpc-id" ]} ∧
     metav1.Labels gateway = {[ "networks.meta.fn.crossplane.io/network-id" := id ]}) ∧
  (∀ req oxr final i,
     GetObservedCompositeResource req = inr oxr →
     is_fatal (out_rsp (RunFunction req)) = false →
     out_desired (RunFunction req) = Some final →
     0 ≤ i < spec_count oxr →
     stores final (vpcName (spec_id oxr) i) (vpc_of oxr i) ∧
     (spec_includeGateway oxr = true →
      stores final (gatewayName (spec_id oxr) i) (gateway_of oxr i))).
Proof.
  split.
  - intros id region providerConfigName i; simpl. split_and!.
    + apply lookup_insert_eq.
    + unfold LabelNetworkID, LabelVPCID.
      rewrite lookup_insert_ne by done. apply lookup_singleton_eq.
    + done.
    + rewrite dom_insert_L, dom_singleton_L. done.
    + done.
  - apply RunFunction_ok_stores.
Qed.

(** C9, as amended.  When the observed XR and the desired resources are
    read, the loop runs to its end without error and the desired resources
    are written back without error, the response is not fatal: it has no
    result, carries the time-to-live of sixty seconds, and its desired state
    is the one written back from the whole map of desired resources; this
    map holds every entry of the invocation, every initial key, and every
    initial entry whose key is not a name of the invocation (an initial
    entry under such a name is replaced by the upsert). *)
Theorem success_response (req : fnv1.RunFunctionRequest) (oxr : Composite)
    (d0 final : desired_map) (state : option State) :
  GetObservedCompositeResource req = inr oxr →
  GetDesiredComposedResources req = inr d0 →
  loop_of oxr (range (spec_count oxr)) d0 = (final, None) →
  SetDesiredComposedResources (fnv1.req_Desired req) final = (state, None) →
  let out := RunFunction req in
  is_fatal (out_rsp out) = false ∧
  fnv1.rsp_Results (out_rsp out) = [] ∧
  fnv1.rsp_Meta (out_rsp out) =
    Some {| fnv1.rspm_Tag := fnv1.GetTag (fnv1.req_Meta req);
            fnv1.rspm_Ttl :=
              Some {| durationpb.Seconds := 60; durationpb.Nanos := 0 |} |} ∧
  fnv1.rsp_Desired (out_rsp out) = state ∧
  out_desired out = Some final ∧
  out_err out = None ∧
  (∀ i, 0 ≤ i < spec_count oxr →
     stores final (vpcName (spec_id oxr) i) (vpc_of oxr i) ∧
     (spec_includeGateway oxr = true →
      stores final (gatewayName (spec_id oxr) i) (gateway_of oxr i))) ∧
  (∀ k, is_Some (d0 !! k) → is_Some (final !! k)) ∧
  (∀ k v,
     d0 !! k = Some v →
     (∀ i, 0 ≤ i < spec_count oxr →
        k ≠ vpcName (spec_id oxr) i ∧ k ≠ gatewayName (spec_id oxr) i) →
     final !! k = Some v).
Proof.
  intros Hoxr Hd0 Hloop Hset out. subst out.
  rewrite (RunFunction_loop req oxr d0 Hoxr Hd0); simpl. rewrite Hloop, Hset; simpl.
  split_and!; [reflexivity|done|reflexivity|done|done|done|..].
  - intros i Hi.
    eapply loop_ok_stores; [apply NoDup_range|exact Hloop|by apply elem_of_range].
  - intros k. by eapply loop_keeps.
  - intros k v Hk Hother. rewrite <-Hk.
    eapply loop_lookup_ne; [exact Hloop|].
    intros i Hi%elem_of_range. by apply Hother.
Qed.

End claims.

(** * Further properties of the function *)

(** ** Names across ids *)

Section names_across_ids.

Lemma has_dash_app (s t : string) : has_dash (s +:+ t) = has_dash s || has_dash t.
Proof.
  induction s as [|a s IH]; [done|].
  rewrite append_cons; simpl. by rewrite IH, orb_assoc.
Qed.

Lemma has_dash_pretty_N_char (x : N) (s : string) :
  has_dash (String (pretty_N_char x) s) = has_dash s.
Proof. unfold pretty_N_char. by repeat case_match. Qed.

Lemma has_dash_pretty_N_go (x : N) (s : string) :
  has_dash (pretty_N_go x s) = has_dash s.
Proof.
  revert s. induction (N.lt_wf_0 x) as [x _ IH]; intros s.
  assert (x = 0 ∨ 0 < x)%N as [->|Hpos] by lia.
  - by rewrite pretty_N_go_0.
  - rewrite pretty_N_go_step by done.
    rewrite IH by (by apply N.div_lt). apply has_dash_pretty_N_char.
Qed.

(** The decimal form of an index that is not negative has no dash. *)
Lemma has_dash_verb_d (i : Z) : 0 ≤ i → has_dash (fmt.verb_d i) = false.
Proof.
  intros Hi. unfold fmt.verb_d, pretty, pretty_Z.
  destruct i as [|p|p]; [done| |lia].
  unfold pretty, pretty_positive, pretty, pretty_N.
  case_decide; [done|]. apply has_dash_pretty_N_go.
Qed.

Lemma append_nil (s : string) : "" +:+ s = s.
Proof. reflexivity. Qed.

(** A string is cut in one way only at its last dash. *)
Lemma last_dash_unique (s s' d d' : string) :
  has_dash d = false → has_dash d' = false →
  s +:+ "-" +:+ d = s' +:+ "-" +:+ d' →
  s = s' ∧ d = d'.
Proof.
  intros Hd Hd'. revert s'.
  induction s as [|a s IH]; intros [|a' s'] Heq;
    rewrite ?append_nil, ?append_cons, ?append_nil in Heq.
  - by injection Heq as ->.
  - injection Heq as <- ->.
    rewrite has_dash_app in Hd. by apply orb_false_iff in Hd as [_ Hd].
  - injection Heq as -> <-.
    rewrite has_dash_app in Hd'. by apply orb_false_iff in Hd' as [_ Hd'].
  - injection Heq as -> Heq.
    destruct (IH _ Heq) as [-> ->]. done.
Qed.

Lemma vpcName_inj_across (id id' : string) (i j : Z) :
  0 ≤ i → 0 ≤ j → vpcName id i = vpcName id' j → id = id' ∧ i = j.
Proof.
  intros Hi Hj. unfold vpcName, fmt.verb_s. intros Heq.
  apply (inj (String.append _)) in Heq.
  apply last_dash_unique in Heq as [-> Heq]; auto using has_dash_verb_d.
  by apply verb_d_inj in Heq.
Qed.

Lemma gatewayName_inj_across (id id' : string) (i j : Z) :
  0 ≤ i → 0 ≤ j → gatewayName id i = gatewayName id' j → id = id' ∧ i = j.
Proof.
  intros Hi Hj. unfold gatewayName, fmt.verb_s. intros Heq.
  apply (inj (String.append _)) in Heq.
  apply last_dash_unique in Heq as [-> Heq]; auto using has_dash_verb_d.
  by apply verb_d_inj in Heq.
Qed.

(** X11.  Over all ids, two units of the same kind have the same name only
    when they have the same id and the same index: for indices that are not
    negative, as those of the loop are, a VPC name determines the id and the
    index it was made from, and so does a gateway name. *)
Theorem names_determine_id_and_index (id id' : string) (i j : Z) :
  0 ≤ i → 0 ≤ j →
  (vpcName id i = vpcName id' j → id = id' ∧ i = j) ∧
  (gatewayName id i = gatewayName id' j → id = id' ∧ i = j).
Proof.
  intros Hi Hj. split.
  - by apply vpcName_inj_across.
  - by apply gatewayName_inj_across.
Qed.

(** The bound on the indices is needed: with a negative index two ids give
    the same name. *)
Example negative_index_collides : vpcName "a" (-2) = vpcName "a-" 2.
Proof. vm_compute. reflexivity. Qed.

(** X12.  The match labels of the gateway of index [i] are among the labels
    of the VPC of index [j] exactly when both have the same name; for one id
    this is when [i = j], so that, among the VPCs of one invocation, the
    selector of a gateway matches the VPC of its own index and no other. *)
Theorem selector_matches_own_vpc_only (id region providerConfigName : string)
    (id' region' providerConfigName' : string) (i j : Z) :
  let gateway := mkGateway id region providerConfigName i in
  let selector :=
    awsv1beta1.igwp_VPCIDSelector
      (awsv1beta1.igws_ForProvider (awsv1beta1.igw_Spec gateway)) in
  let labels (vpc : awsv1beta1.VPC) := metav1.Labels (awsv1beta1.vpc_ObjectMeta vpc) in
  (∃ sel, selector = Some sel ∧
     (v1.MatchLabels sel ⊆ labels (mkVPC id' region' providerConfigName' j) ↔
      vpcName id i = vpcName id' j)) ∧
  (∃ sel, selector = Some sel ∧
     (v1.MatchLabels sel ⊆ labels (mkVPC id region' providerConfigName' j) ↔ i = j)).
Proof.
  intros gateway selector labels. subst gateway selector labels; simpl.
  assert (∀ id'' : string,
            ({[ LabelVPCID := vpcName id i ]} : gmap string string) ⊆
              {[ LabelNetworkID := id''; LabelVPCID := vpcName id'' j ]} ↔
            vpcName id i = vpcName id'' j) as Hmatch.
  { intros id''. rewrite map_singleton_subseteq_l.
    rewrite lookup_insert_ne by done. rewrite lookup_singleton_eq.
    split; [intros Heq; congruence|by intros ->]. }
  split; eexists; (split; [reflexivity|]); simpl.
  - by apply Hmatch.
  - rewrite Hmatch. split; [apply vpcName_inj|by intros ->].
Qed.

End names_across_ids.

(** ** More on the loop *)

Section more_loop_facts.
Context `{!SdkTypes, !Sdk}.
Variables (id : string) (includeGateway : bool) (region providerConfigName : string).

Abbreviation desired_map := (gmap string resource.DesiredComposed).
Abbreviation vpc_at i := (ObjVPC (mkVPC id region providerConfigName i)).
Abbreviation gateway_at i := (ObjInternetGateway (mkGateway id region providerConfigName i)).
Abbreviation body := (iteration id includeGateway region providerConfigName).
Abbreviation run := (loop id includeGateway region providerConfigName).

(** The error of the loop is a wrapped conversion error. *)
Lemma loop_error_wrapped (indices : list Z) (d d' : desired_map) (e : errors.error) :
  run indices d = (d', Some e) → ∃ err msg, e = errors.Wrapf err msg.
Proof.
  revert d. induction indices as [|i indices IH]; intros d Hrun; [done|].
  rewrite loop_cons in Hrun.
  destruct (body i d) as [d1 [err|]] eqn:Hbody; [|by eapply IH].
  simplify_eq.
  apply iteration_inv in Hbody
    as [(?&?&?&?)|[(?&?&?&?&?)|[(?&?&?&?&?&?&?)|(?&?&?&?&?&?&?)]]];
    simplify_eq; by eexists _, _.
Qed.

(** On a map that already stores what the body would store, the body
    changes nothing. *)
Lemma iteration_stored (i : Z) (d : desired_map) :
  stores d (vpcName id i) (vpc_at i) →
  (includeGateway = true → stores d (gatewayName id i) (gateway_at i)) →
  body i d = (d, None).
Proof.
  intros (dcV&HV&HdV) HG. unfold iteration. rewrite HV.
  rewrite (insert_id _ _ _ HdV).
  destruct includeGateway; [|done].
  destruct (HG eq_refl) as (dcG&HGc&HdG). rewrite HGc.
  by rewrite (insert_id _ _ _ HdG).
Qed.

Lemma loop_stored (indices : list Z) (d : desired_map) :
  (∀ i, i ∈ indices →
     stores d (vpcName id i) (vpc_at i) ∧
     (includeGateway = true → stores d (gatewayName id i) (gateway_at i))) →
  run indices d = (d, None).
Proof.
  induction indices as [|i indices IH]; intros Hall; [done|].
  rewrite loop_cons.
  destruct (Hall i) as [HV HG]; [left|].
  rewrite (iteration_stored i d HV HG).
  apply IH. intros j Hj. apply Hall. by right.
Qed.

(** Running the loop again on the map it left changes nothing. *)
Lemma loop_idempotent (indices : list Z) (d d' : desired_map) :
  NoDup indices →
  run indices d = (d', None) →
  run indices d' = (d', None).
Proof.
  intros Hnd Hrun. apply loop_stored.
  intros i Hi. by eapply loop_ok_stores.
Qed.

(** The body adds at most one entry, or two with gateways, and removes
    none. *)
Lemma iteration_size (i : Z) (d d' : desired_map) e :
  body i d = (d', e) →
  (size d ≤ size d' ≤ size d + (if includeGateway then 2 else 1))%nat.
Proof.
  assert (∀ (m : desired_map) k v, (size m ≤ size (<[k:=v]> m) ≤ size m + 1)%nat)
    as Hins.
  { intros m k v. rewrite map_size_insert. destruct (m !! k); simpl; lia. }
  intros Hbody.
  apply iteration_inv in Hbody
    as [(?&?&->&?)|[(dcV&?&->&?&->)|[(dcV&?&?&->&?&?&->)|(dcV&dcG&?&->&?&?&->)]]].
  - destruct includeGateway; lia.
  - apply Hins.
  - pose proof (Hins d (vpcName id i)
                  {| resource.Resource := dcV; resource.Ready := "" |}). lia.
  - pose proof (Hins d (vpcName id i)
                  {| resource.Resource := dcV; resource.Ready := "" |}) as HsizeV.
    pose proof (Hins (<[vpcName id i :=
                          {| resource.Resource := dcV; resource.Ready := "" |}]> d)
                  (gatewayName id i)
                  {| resource.Resource := dcG; resource.Ready := "" |}) as HsizeG.
    lia.
Qed.

Lemma loop_size (indices : list Z) (d d' : desired_map) e :
  run indices d = (d', e) →
  (size d ≤ size d' ≤ size d + length indices * (if includeGateway then 2 else 1))%nat.
Proof.
  revert d. induction indices as [|i indices IH]; intros d Hrun.
  - simplify_eq/=. lia.
  - rewrite loop_cons in Hrun.
    destruct (body i d) as [d1 o] eqn:Hbody.
    apply iteration_size in Hbody.
    destruct o as [err|].
    + simplify_eq. simpl. destruct includeGateway; lia.
    + apply IH in Hrun. simpl. destruct includeGateway; lia.
Qed.

(** Among the first [n] indices either every conversion succeeds or there
    is a first index at which one fails. *)
Lemma first_failure (n : nat) :
  (∀ j, 0 ≤ j < Z.of_nat n →
     converts (vpc_at j) ∧ (includeGateway = true → converts (gateway_at j)))
  ∨ (∃ i0 err0,
       0 ≤ i0 < Z.of_nat n ∧
       (∀ j, 0 ≤ j < i0 →
          converts (vpc_at j) ∧ (includeGateway = true → converts (gateway_at j))) ∧
       (From (vpc_at i0) = inl err0 ∨
        (converts (vpc_at i0) ∧ includeGateway = true ∧
         From (gateway_at i0) = inl err0))).
Proof.
  induction n as [|n [IH|(i0&err0&?&?&?)]].
  - left. lia.
  - destruct (From (vpc_at (Z.of_nat n))) as [err|dcV] eqn:HV.
    { right. exists (Z.of_nat n), err. split; [lia|]. split; [done|]. by left. }
    destruct includeGateway eqn:Hincl.
    + destruct (From (gateway_at (Z.of_nat n))) as [err|dcG] eqn:HG.
      { right. exists (Z.of_nat n), err. split; [lia|]. split; [done|].
        right. split; [by exists dcV|done]. }
      left. intros j Hj.
      destruct (decide (j = Z.of_nat n)) as [->|]; [|apply IH; lia].
      split; [by exists dcV|]. intros _. by exists dcG.
    + left. intros j Hj.
      destruct (decide (j = Z.of_nat n)) as [->|]; [|apply IH; lia].
      split; [by exists dcV|done].
  - right. exists i0, err0. split; [lia|done].
Qed.

(** A failing conversion at [i0], after conversions that succeed, ends the
    loop with the error of [i0]. *)
Lemma loop_fails_at (count i0 : Z) (err0 : errors.error) (d : desired_map) :
  0 ≤ i0 < count →
  (∀ j, 0 ≤ j < i0 →
     converts (vpc_at j) ∧ (includeGateway = true → converts (gateway_at j))) →
  (From (vpc_at i0) = inl err0 ∨
   (converts (vpc_at i0) ∧ includeGateway = true ∧ From (gateway_at i0) = inl err0)) →
  ∃ d' msg, run (range count) d = (d', Some (errors.Wrapf err0 msg)).
Proof.
  intros Hi0 Hbefore Hfail.
  destruct (converts_loop_ok id includeGateway region providerConfigName (range i0) d)
    as [before Hpre].
  { intros j Hj%elem_of_range. by apply Hbefore. }
  rewrite (range_split _ i0) by done.
  rewrite loop_app, Hpre, loop_cons. unfold iteration.
  destruct Hfail as [HV|([dcV HV]&Hyes&HG)].
  - rewrite HV. by eexists _, _.
  - rewrite HV, Hyes, HG. by eexists _, _.
Qed.

End more_loop_facts.

(** ** More on the function as a whole *)

Section further_properties.
Context `{!SdkTypes, !Sdk}.

Abbreviation desired_map := (gmap string resource.DesiredComposed).

(** X1.  When the XR is read but the desired composed resources cannot be,
    the call stops before the loop: the response gets one fatal result, whose
    message wraps the cause, its desired state is that of the request, no
    map is obtained and no conversion is made, and the error returned is
    nil. *)
Theorem desired_resources_unreadable (req : fnv1.RunFunctionRequest) (oxr : Composite)
    (err : errors.error) :
  GetObservedCompositeResource req = inr oxr →
  GetDesiredComposedResources req = inl err →
  let out := RunFunction req in
  out_rsp out =
    response.Fatal (response.To req response.DefaultTTL)
      (errors.Wrapf err "cannot get desired resources from *v1.RunFunctionRequest") ∧
  is_fatal (out_rsp out) = true ∧
  fatal_messages (out_rsp out) =
    ["cannot get desired resources from *v1.RunFunctionRequest: " +:+ err] ∧
  fnv1.rsp_Desired (out_rsp out) = fnv1.req_Desired req ∧
  out_desired out = None ∧
  out_err out = None.
Proof.
  intros Hoxr Hd0 out. subst out. unfold RunFunction. rewrite Hoxr, Hd0; simpl.
  split_and!; [done|apply is_fatal_Fatal|reflexivity|done..].
Qed.

(** X2.  When the loop ends without error but the desired resources cannot
    be written back, the response is fatal with a message that wraps the
    cause; its desired state is whatever the failed write left, while the
    map still holds every entry of the loop; the time-to-live is kept and
    the error returned is nil. *)
Theorem write_back_failure (req : fnv1.RunFunctionRequest) (oxr : Composite)
    (d0 final : desired_map) (state : option State) (err : errors.error) :
  GetObservedCompositeResource req = inr oxr →
  GetDesiredComposedResources req = inr d0 →
  loop_of oxr (range (spec_count oxr)) d0 = (final, None) →
  SetDesiredComposedResources (fnv1.req_Desired req) final = (state, Some err) →
  let out := RunFunction req in
  is_fatal (out_rsp out) = true ∧
  fatal_messages (out_rsp out) =
    ["cannot set desired composed resources in *v1.RunFunctionResponse: " +:+ err] ∧
  fnv1.rsp_Desired (out_rsp out) = state ∧
  fnv1.rsp_Meta (out_rsp out) = fnv1.rsp_Meta (response.To req response.DefaultTTL) ∧
  out_desired out = Some final ∧
  (∀ i, 0 ≤ i < spec_count oxr →
     stores final (vpcName (spec_id oxr) i) (vpc_of oxr i) ∧
     (spec_includeGateway oxr = true →
      stores final (gatewayName (spec_id oxr) i) (gateway_of oxr i))) ∧
  out_err out = None.
Proof.
  intros Hoxr Hd0 Hloop Hset out. subst out.
  rewrite (RunFunction_loop req oxr d0 Hoxr Hd0); simpl. rewrite Hloop, Hset; simpl.
  split_and!; [apply is_fatal_Fatal|reflexivity|done|done|done| |done].
  intros i Hi.
  eapply loop_ok_stores; [apply NoDup_range|exact Hloop|by apply elem_of_range].
Qed.

(** X3.  A count that is zero or negative gives no iteration at all: no
    conversion is made, the map is the one read from the request, and it is
    still written back, so that the response is fatal only if that write
    fails. *)
Theorem nonpositive_count_no_iteration (req : fnv1.RunFunctionRequest) (oxr : Composite)
    (d0 : desired_map) :
  GetObservedCompositeResource req = inr oxr →
  GetDesiredComposedResources req = inr d0 →
  spec_count oxr ≤ 0 →
  let out := RunFunction req in
  out_desired out = Some d0 ∧
  fnv1.rsp_Desired (out_rsp out) =
    (SetDesiredComposedResources (fnv1.req_Desired req) d0).1 ∧
  (is_fatal (out_rsp out) = false ↔
   (SetDesiredComposedResources (fnv1.req_Desired req) d0).2 = None).
Proof.
  intros Hoxr Hd0 Hcount out. subst out.
  rewrite (RunFunction_loop req oxr d0 Hoxr Hd0); simpl.
  unfold range. rewrite seqZ_nil by done. unfold loop_of; simpl.
  destruct (SetDesiredComposedResources _ d0) as [state [err|]]; simpl.
  - split; [done|]. split; [done|]. rewrite is_fatal_Fatal. by split.
  - by split_and!.
Qed.

(** X4.  On every request and every path the response echoes the tag and
    the context of the request and carries the time-to-live of sixty
    seconds, and it has either no result or a single result, which is fatal
    and has a message that is not empty. *)
Theorem response_envelope (req : fnv1.RunFunctionRequest) :
  let rsp := out_rsp (RunFunction req) in
  fnv1.rsp_Meta rsp =
    Some {| fnv1.rspm_Tag := fnv1.GetTag (fnv1.req_Meta req);
            fnv1.rspm_Ttl := Some {| durationpb.Seconds := 60; durationpb.Nanos := 0 |} |} ∧
  fnv1.rsp_Context rsp = fnv1.req_Context req ∧
  (fnv1.rsp_Results rsp = [] ∨
   ∃ msg, msg ≠ "" ∧
     fnv1.rsp_Results rsp =
       [{| fnv1.res_Severity := fnv1.SEVERITY_FATAL; fnv1.res_Message := msg |}]).
Proof.
  intros rsp. subst rsp. unfold RunFunction.
  destruct (GetObservedCompositeResource req) as [err|oxr]; simpl.
  { split_and!; [reflexivity|done|]. right. eexists. split; [apply Wrapf_nonempty|done]. }
  destruct (GetDesiredComposedResources req) as [err|d0]; simpl.
  { split_and!; [reflexivity|done|]. right. eexists. split; [apply Wrapf_nonempty|done]. }
  destruct (loop _ _ _ _ _ d0) as [d [e|]] eqn:Hloop; simpl.
  { split_and!; [reflexivity|done|]. right. exists e. split; [|done].
    apply loop_error_wrapped in Hloop as (err&msg&->). apply Wrapf_nonempty. }
  destruct (SetDesiredComposedResources _ d) as [state [err|]]; simpl.
  { split_and!; [reflexivity|done|]. right. eexists. split; [apply Wrapf_nonempty|done]. }
  split_and!; [reflexivity|done|by left].
Qed.

(** X5.  The desired state of the response is either the one of the request,
    untouched, or the one written back from a map on which the loop ran to
    its end: the entries inserted before a conversion failure never reach
    the response. *)
Theorem response_desired_all_or_nothing (req : fnv1.RunFunctionRequest) :
  let out := RunFunction req in
  fnv1.rsp_Desired (out_rsp out) = fnv1.req_Desired req ∨
  ∃ oxr d0 final,
    GetObservedCompositeResource req = inr oxr ∧
    GetDesiredComposedResources req = inr d0 ∧
    loop_of oxr (range (spec_count oxr)) d0 = (final, None) ∧
    out_desired out = Some final ∧
    fnv1.rsp_Desired (out_rsp out) =
      (SetDesiredComposedResources (fnv1.req_Desired req) final).1 ∧
    (∀ i, 0 ≤ i < spec_count oxr →
       stores final (vpcName (spec_id oxr) i) (vpc_of oxr i) ∧
       (spec_includeGateway oxr = true →
        stores final (gatewayName (spec_id oxr) i) (gateway_of oxr i))).
Proof.
  intros out. subst out.
  destruct (GetObservedCompositeResource req) as [err|oxr] eqn:Hoxr.
  { left. unfold RunFunction. by rewrite Hoxr. }
  destruct (GetDesiredComposedResources req) as [err|d0] eqn:Hd0.
  { left. unfold RunFunction. by rewrite Hoxr, Hd0. }
  rewrite (RunFunction_loop req oxr d0 Hoxr Hd0); simpl.
  destruct (loop_of oxr _ d0) as [final [e|]] eqn:Hloop; simpl; [by left|].
  right. exists oxr, d0, final.
  assert (∀ i, 0 ≤ i < spec_count oxr →
            stores final (vpcName (spec_id oxr) i) (vpc_of oxr i) ∧
            (spec_includeGateway oxr = true →
             stores final (gatewayName (spec_id oxr) i) (gateway_of oxr i))) as Hstored.
  { intros i Hi.
    eapply loop_ok_stores; [apply NoDup_range|exact Hloop|by apply elem_of_range]. }
  by destruct (SetDesiredComposedResources _ final) as [state [err|]].
Qed.

(** X6.  A call on a request whose desired resources are the map left by a
    call that was not fatal, for the same XR, leaves that map as it is: the
    upsert writes again what is already there. *)
Theorem rerun_leaves_the_map (req req' : fnv1.RunFunctionRequest) (oxr : Composite)
    (final : desired_map) :
  GetObservedCompositeResource req = inr oxr →
  is_fatal (out_rsp (RunFunction req)) = false →
  out_desired (RunFunction req) = Some final →
  GetObservedCompositeResource req' = inr oxr →
  GetDesiredComposedResources req' = inr final →
  out_desired (RunFunction req') = Some final ∧
  (is_fatal (out_rsp (RunFunction req')) = false ↔
   (SetDesiredComposedResources (fnv1.req_Desired req') final).2 = None).
Proof.
  intros Hoxr (oxr0&d0&final0&state&Hoxr0&Hd0&Hloop&Hset&Hrun)%RunFunction_ok_inv.
  rewrite Hrun; simpl. intros [= ->] Hoxr' Hd0'.
  assert (oxr0 = oxr) as -> by congruence.
  apply loop_idempotent in Hloop; [|apply NoDup_range].
  rewrite (RunFunction_loop req' oxr final Hoxr' Hd0'); simpl.
  unfold loop_of. rewrite Hloop; simpl.
  destruct (SetDesiredComposedResources (fnv1.req_Desired req') final)
    as [state' [err|]]; cbn [out_rsp out_desired fst snd].
  - split; [done|]. rewrite is_fatal_Fatal. by split.
  - by split.
Qed.

(** X7.  The loop converts nothing but what it inserts: when every VPC of
    the range converts, and every gateway does if gateways are requested,
    the loop runs to its end and only the write-back can make the response
    fatal.  Without [includeGateway] no gateway is converted, so that a
    gateway that would not convert is no obstacle, and no gateway name is
    written. *)
Theorem conversions_needed (req : fnv1.RunFunctionRequest) (oxr : Composite)
    (d0 : desired_map) :
  GetObservedCompositeResource req = inr oxr →
  GetDesiredComposedResources req = inr d0 →
  (∀ i, 0 ≤ i < spec_count oxr → converts (vpc_of oxr i)) →
  (spec_includeGateway oxr = true →
   ∀ i, 0 ≤ i < spec_count oxr → converts (gateway_of oxr i)) →
  let out := RunFunction req in
  ∃ final,
    out_desired out = Some final ∧
    (is_fatal (out_rsp out) = false ↔
     (SetDesiredComposedResources (fnv1.req_Desired req) final).2 = None) ∧
    (∀ i, 0 ≤ i < spec_count oxr →
       stores final (vpcName (spec_id oxr) i) (vpc_of oxr i)) ∧
    (spec_includeGateway oxr = false →
     ∀ i, final !! gatewayName (spec_id oxr) i = d0 !! gatewayName (spec_id oxr) i).
Proof.
  intros Hoxr Hd0 HV HG out. subst out.
  destruct (converts_loop_ok (spec_id oxr) (spec_includeGateway oxr) (spec_region oxr)
              (spec_providerConfigName oxr) (range (spec_count oxr)) d0)
    as [final Hloop].
  { intros i Hi%elem_of_range. split; [by apply HV|]. intros Hyes. by apply HG. }
  exists final.
  rewrite (RunFunction_loop req oxr d0 Hoxr Hd0); simpl.
  unfold loop_of. rewrite Hloop; simpl.
  assert (∀ i, 0 ≤ i < spec_count oxr →
            stores final (vpcName (spec_id oxr) i) (vpc_of oxr i)) as Hstored.
  { intros i Hi.
    eapply loop_ok_stores; [apply NoDup_range|exact Hloop|by apply elem_of_range]. }
  assert (spec_includeGateway oxr = false →
          ∀ i, final !! gatewayName (spec_id oxr) i = d0 !! gatewayName (spec_id oxr) i)
    as Hnone.
  { intros Hno i. eapply loop_lookup_ne_vpc; [exact Hno|exact Hloop|].
    intros j _. apply gatewayName_vpcName. }
  destruct (SetDesiredComposedResources _ final) as [state [err|]];
    cbn [out_rsp out_desired fst snd].
  - split; [done|]. split; [|done]. rewrite is_fatal_Fatal. by split.
  - by split_and!.
Qed.

(** X8.  When some conversion of the range fails, the call is fatal and the
    error it reports is that of the first index at which a conversion fails,
    the VPC of an index coming before its gateway; what fails at later
    indices is never reached. *)
Theorem first_failure_reported (req : fnv1.RunFunctionRequest) (oxr : Composite)
    (d0 : desired_map) (i : Z) (err : errors.error) :
  GetObservedCompositeResource req = inr oxr →
  GetDesiredComposedResources req = inr d0 →
  0 ≤ i < spec_count oxr →
  (From (vpc_of oxr i) = inl err ∨
   (spec_includeGateway oxr = true ∧ From (gateway_of oxr i) = inl err)) →
  let out := RunFunction req in
  is_fatal (out_rsp out) = true ∧
  ∃ i0 err0 msg,
    0 ≤ i0 ≤ i ∧
    (∀ j, 0 ≤ j < i0 →
       converts (vpc_of oxr j) ∧
       (spec_includeGateway oxr = true → converts (gateway_of oxr j))) ∧
    (From (vpc_of oxr i0) = inl err0 ∨
     (converts (vpc_of oxr i0) ∧ spec_includeGateway oxr = true ∧
      From (gateway_of oxr i0) = inl err0)) ∧
    fatal_messages (out_rsp out) = [errors.Wrapf err0 msg].
Proof.
  intros Hoxr Hd0 Hi Hfail out. subst out.
  destruct (first_failure (spec_id oxr) (spec_includeGateway oxr) (spec_region oxr)
              (spec_providerConfigName oxr) (Z.to_nat (i + 1)))
    as [Hall|(i0&err0&Hi0&Hbefore&Hfail0)].
  { destruct (Hall i) as [[dcV HV] HG]; [lia|].
    fold (vpc_of oxr i) in HV. fold (gateway_of oxr i) in HG.
    destruct Hfail as [?|[Hyes ?]]; [congruence|].
    destruct (HG Hyes) as [dcG ?]. congruence. }
  destruct (loop_fails_at (spec_id oxr) (spec_includeGateway oxr) (spec_region oxr)
              (spec_providerConfigName oxr) (spec_count oxr) i0 err0 d0)
    as (final&msg&Hloop); [lia|done..|].
  rewrite (RunFunction_loop req oxr d0 Hoxr Hd0); simpl.
  unfold loop_of. rewrite Hloop; simpl.
  split; [apply is_fatal_Fatal|].
  exists i0, err0, msg. split; [lia|]. by split_and!.
Qed.

(** X9.  On every path that obtains the map, the map never shrinks and grows
    by at most one entry per index of the range, or two with gateways. *)
Theorem desired_size_bounds (req : fnv1.RunFunctionRequest) (final : desired_map) :
  out_desired (RunFunction req) = Some final →
  ∃ oxr d0,
    GetObservedCompositeResource req = inr oxr ∧
    GetDesiredComposedResources req = inr d0 ∧
    (size d0 ≤ size final ≤
     size d0 + Z.to_nat (spec_count oxr) * (if spec_includeGateway oxr then 2 else 1))%nat.
Proof.
  intros (oxr&d0&e&Hoxr&Hd0&Hloop)%RunFunction_desired_inv.
  exists oxr, d0. split; [done|]. split; [done|].
  apply loop_size in Hloop. by rewrite length_range in Hloop.
Qed.

(** X10.  After a call that is not fatal, what the map holds under the VPC
    name of an index is the converted VPC with the zero readiness, whatever
    was there before: an entry that the request had under that name, with
    its own readiness, is gone.  The same holds under a gateway name when
    gateways are requested. *)
Theorem upsert_takes_the_name (req : fnv1.RunFunctionRequest) (oxr : Composite)
    (d0 final : desired_map) (i : Z) :
  GetObservedCompositeResource req = inr oxr →
  GetDesiredComposedResources req = inr d0 →
  is_fatal (out_rsp (RunFunction req)) = false →
  out_desired (RunFunction req) = Some final →
  0 ≤ i < spec_count oxr →
  (∃ v, final !! vpcName (spec_id oxr) i = Some v ∧
        From (vpc_of oxr i) = inr (resource.Resource v) ∧
        resource.Ready v = "" ∧
        ∀ v0, d0 !! vpcName (spec_id oxr) i = Some v0 → resource.Ready v0 ≠ "" → v ≠ v0) ∧
  (spec_includeGateway oxr = true →
   ∃ v, final !! gatewayName (spec_id oxr) i = Some v ∧
        From (gateway_of oxr i) = inr (resource.Resource v) ∧
        resource.Ready v = "" ∧
        ∀ v0, d0 !! gatewayName (spec_id oxr) i = Some v0 →
              resource.Ready v0 ≠ "" → v ≠ v0).
Proof.
  intros Hoxr Hd0 Hok Hfinal Hi.
  destruct (RunFunction_ok_stores req oxr final i Hoxr Hok Hfinal Hi)
    as [(dcV&HV&HdV) HG].
  split.
  - eexists. split; [exact HdV|]. split; [done|]. split; [done|].
    by intros v0 _ Hready <-.
  - intros Hyes. destruct (HG Hyes) as (dcG&HGc&HdG).
    eexists. split; [exact HdG|]. split; [done|]. split; [done|].
    by intros v0 _ Hready <-.
Qed.

(** X13.  A call never writes under the name that another id gives to a
    unit: on every path that obtains the map, the entries under
    [vpc-<id>-<i>] and [gateway-<id>-<i>], for an id other than the one of
    the XR and an index that is not negative, are those of the request. *)
Theorem other_ids_untouched (req : fnv1.RunFunctionRequest) (final : desired_map)
    (id : string) (i : Z) :
  out_desired (RunFunction req) = Some final →
  0 ≤ i →
  ∃ oxr d0,
    GetObservedCompositeResource req = inr oxr ∧
    GetDesiredComposedResources req = inr d0 ∧
    (id ≠ spec_id oxr →
     final !! vpcName id i = d0 !! vpcName id i ∧
     final !! gatewayName id i = d0 !! gatewayName id i).
Proof.
  intros (oxr&d0&e&Hoxr&Hd0&Hloop)%RunFunction_desired_inv Hi.
  exists oxr, d0. split; [done|]. split; [done|]. intros Hid.
  split; (eapply loop_lookup_ne; [exact Hloop|]); intros j [Hj _]%elem_of_range; split.
  - intros [? _]%vpcName_inj_across; done.
  - apply vpcName_gatewayName.
  - apply gatewayName_vpcName.
  - intros [? _]%gatewayName_inj_across; done.
Qed.

End further_properties.

(** ** The claims on concrete calls *)

Section concrete.

#[local] Existing Instance fake.types.

Abbreviation Run sdk req := (@RunFunction fake.types sdk req).

(** The test of the repository: one VPC and its gateway, a time-to-live of
    sixty seconds, no result and no error. *)
Example AddOneNetworks_outcome :
  let out := Run fake.all_accepted fake.AddOneNetworks in
  (dom <$> out_desired out) = Some ({[ "vpc-code-0"; "gateway-code-0" ]} : gset string) ∧
  fnv1.rsp_Meta (out_rsp out) =
    Some {| fnv1.rspm_Tag := "";
            fnv1.rspm_Ttl := Some {| durationpb.Seconds := 60; durationpb.Nanos := 0 |} |} ∧
  fnv1.rsp_Results (out_rsp out) = [] ∧
  out_err out = None.
Proof. vm_compute. done. Qed.

(** A count of zero: nothing is added and the response is not fatal. *)
Example no_network_outcome :
  out_desired (Run fake.all_accepted fake.no_network) = Some ∅ ∧
  is_fatal (out_rsp (Run fake.all_accepted fake.no_network)) = false.
Proof. vm_compute. done. Qed.

Example vpcName_code_0 : vpcName "code" 0 = "vpc-code-0".
Proof. vm_compute. reflexivity. Qed.

Example gatewayName_code_12 : gatewayName "code" 12 = "gateway-code-12".
Proof. vm_compute. reflexivity. Qed.


Lemma observed_xr_unreadable_witness :
  is_fatal (out_rsp (Run fake.all_accepted fake.request_without_xr)) = true ∧
  fatal_messages (out_rsp (Run fake.all_accepted fake.request_without_xr)) =
    ["cannot get desired XR: no observed composite resource"] ∧
  out_desired (Run fake.all_accepted fake.request_without_xr) = None.
Proof.
  destruct (@observed_xr_unreadable _ fake.all_accepted fake.request_without_xr
              "no observed composite resource")
    as (Hfatal & Hmsg & _ & _ & Hnone & _); [reflexivity|].
  split_and!; [exact Hfatal|exact Hmsg|exact Hnone].
Defined.

Lemma unrelated_keys_untouched_witness :
  ∃ final,
    out_desired (Run fake.all_accepted fake.beside_unrelated) = Some final ∧
    final !! "bucket" = Some (fake.composed fake.earlier_entry).
Proof.
  pose proof (@unrelated_keys_untouched _ fake.all_accepted fake.beside_unrelated)
    as Hframe.
  destruct (out_desired (Run fake.all_accepted fake.beside_unrelated))
    as [final|] eqn:Hout; [|vm_compute in Hout; discriminate].
  exists final. split; [reflexivity|].
  destruct Hframe as (oxr & d0 & Hoxr & Hd0 & Hother & _).
  injection Hoxr as <-. injection Hd0 as <-.
  rewrite Hother; [vm_compute; reflexivity|].
  intros i _. split; unfold vpcName, gatewayName; rewrite !append_cons; discriminate.
Defined.

Lemma conversion_failure_aborts_witness :
  ∃ final,
    out_desired (Run fake.gateway_1_refused fake.three_networks) = Some final ∧
    is_fatal (out_rsp (Run fake.gateway_1_refused fake.three_networks)) = true ∧
    is_Some (final !! "vpc-code-0") ∧
    is_Some (final !! "gateway-code-0") ∧
    final !! "gateway-code-1" = None ∧
    final !! "vpc-code-2" = None ∧
    final !! "gateway-code-2" = None.
Proof.
  destruct (@conversion_failure_aborts _ fake.gateway_1_refused fake.three_networks
              (fake.xr_code 3 true) ∅ 1 "did not find Go type in scheme")
    as (before & final & _ & Hfinal & _ & _ & Hkept & Hlater & Hgateway & Hfatal & _).
  - reflexivity.
  - reflexivity.
  - change (0 ≤ 1 < 3). lia.
  - intros j Hj. assert (j = 0) as -> by lia.
    split; [|intros _]; eexists; vm_compute; reflexivity.
  - right. split; [eexists; vm_compute; reflexivity|].
    split; vm_compute; reflexivity.
  - exists final. split; [exact Hfinal|]. split; [exact Hfatal|].
    destruct (Hkept 0) as [(dcV & _ & HdV) HG]; [lia|].
    destruct (HG eq_refl) as (dcG & _ & HdG).
    destruct (Hlater 2) as [HV2 HG2]; [lia|].
    split_and!.
    + change (is_Some (final !! vpcName "code" 0)).
      eexists. exact HdV.
    + change (is_Some (final !! gatewayName "code" 0)).
      eexists. exact HdG.
    + exact Hgateway.
    + exact HV2.
    + exact HG2.
Defined.


Lemma names_injective_and_stable_witness :
  ∃ final,
    out_desired (Run fake.all_accepted fake.two_networks) = Some final ∧
    @stores _ fake.all_accepted final "vpc-code-1"
      (@vpc_of _ fake.all_accepted (fake.xr_code 2 true) 1) ∧
    @stores _ fake.all_accepted final "gateway-code-1"
      (@gateway_of _ fake.all_accepted (fake.xr_code 2 true) 1).
Proof.
  destruct (@names_injective_and_stable _ fake.all_accepted)
    as (_ & _ & _ & _ & _ & Hstored & _).
  destruct (out_desired (Run fake.all_accepted fake.two_networks))
    as [final|] eqn:Hout; [|vm_compute in Hout; discriminate].
  exists final. split; [reflexivity|].
  destruct (Hstored fake.two_networks (fake.xr_code 2 true) final 1)
    as (_ & HV & HG);
    [reflexivity|vm_compute; reflexivity|exact Hout|change (0 ≤ 1 < 2); lia|].
  split; [exact HV|exact (proj2 (HG eq_refl))].
Defined.

Lemma gateway_selects_vpc_by_label_witness :
  ∃ final,
    out_desired (Run fake.all_accepted fake.two_networks) = Some final ∧
    @stores _ fake.all_accepted final "gateway-code-1"
      (ObjInternetGateway (mkGateway "code" "eu-central-1" "default" 1)).
Proof.
  eexists. split; [vm_compute; reflexivity|].
  refine (proj2 (@gateway_selects_vpc_by_label _ fake.all_accepted)
            fake.two_networks (fake.xr_code 2 true) _ 1 _ _ _ _ _);
    [reflexivity|vm_compute; reflexivity|reflexivity|reflexivity|change (0 ≤ 1 < 2); lia].
Defined.

Lemma defaults_only_when_empty_witness :
  forProvider_region (@vpc_of _ fake.all_accepted (fake.xr_bare 2 true) 0) =
    Some "eu-central-1" ∧
  providerConfigRef (@gateway_of _ fake.all_accepted (fake.xr_bare 2 true) 0) =
    Some {| v1.Name := "default" |} ∧
  ∃ final,
    out_desired (Run fake.all_accepted fake.two_bare_networks) = Some final ∧
    @stores _ fake.all_accepted final "vpc-code-0"
      (@vpc_of _ fake.all_accepted (fake.xr_bare 2 true) 0).
Proof.
  destruct (@defaults_only_when_empty _ fake.all_accepted) as [Hunit Hstored].
  destruct (Hunit (fake.xr_bare 2 true) 0) as (Hregion & _ & Hconfig & _).
  split; [exact (proj1 (Hregion eq_refl))|].
  split; [exact (proj2 (Hconfig eq_refl))|].
  eexists. split; [vm_compute; reflexivity|].
  refine (proj1 (Hstored fake.two_bare_networks (fake.xr_bare 2 true) _ 0 _ _ _ _));
    [reflexivity|vm_compute; reflexivity|reflexivity|change (0 ≤ 0 < 2); lia].
Defined.

Lemma correlation_labels_witness :
  ∃ final,
    out_desired (Run fake.all_accepted fake.two_networks) = Some final ∧
    @stores _ fake.all_accepted final "vpc-code-0"
      (@vpc_of _ fake.all_accepted (fake.xr_code 2 true) 0).
Proof.
  eexists. split; [vm_compute; reflexivity|].
  refine (proj1 (proj2 (@correlation_labels _ fake.all_accepted)
                   fake.two_networks (fake.xr_code 2 true) _ 0 _ _ _ _));
    [reflexivity|vm_compute; reflexivity|reflexivity|change (0 ≤ 0 < 2); lia].
Defined.

Lemma success_response_witness :
  is_fatal (out_rsp (Run fake.all_accepted fake.name_taken)) = false ∧
  fnv1.rsp_Results (out_rsp (Run fake.all_accepted fake.name_taken)) = [] ∧
  fnv1.rsp_Meta (out_rsp (Run fake.all_accepted fake.name_taken)) =
    Some {| fnv1.rspm_Tag := "";
            fnv1.rspm_Ttl := Some {| durationpb.Seconds := 60; durationpb.Nanos := 0 |} |}.
Proof.
  edestruct (@success_response _ fake.all_accepted fake.name_taken (fake.xr_code 1 true)
               {[ "vpc-code-0" := fake.composed fake.earlier_entry ]})
    as (Hok & Hresults & Hmeta & _).
  - reflexivity.
  - vm_compute. reflexivity.
  - vm_compute. reflexivity.
  - vm_compute. reflexivity.
  - split_and!; [exact Hok|exact Hresults|exact Hmeta].
Defined.

(** C9, as stated, fails: the desired state of the request holds an entry
    under ["vpc-code-0"]; the call is not fatal, yet neither the final map
    nor the desired state of the response holds that entry: the VPC of
    index 0 has taken its place. *)
Lemma initial_entry_replaced :
  is_fatal (out_rsp (Run fake.all_accepted fake.name_taken)) = false ∧
  (∃ d0, fake.getDesired fake.name_taken = inr d0 ∧
         d0 !! "vpc-code-0" = Some (fake.composed fake.earlier_entry)) ∧
  (∃ final, out_desired (Run fake.all_accepted fake.name_taken) = Some final ∧
            final !! "vpc-code-0" ≠ Some (fake.composed fake.earlier_entry)) ∧
  (∃ state, fnv1.rsp_Desired (out_rsp (Run fake.all_accepted fake.name_taken)) = Some state ∧
            fake.st_Resources state !! "vpc-code-0" ≠ Some fake.earlier_entry).
Proof.
  split_and!.
  - vm_compute. reflexivity.
  - eexists. split; [reflexivity|]. vm_compute. reflexivity.
  - eexists. split; [vm_compute; reflexivity|]. vm_compute. discriminate.
  - eexists. split; [vm_compute; reflexivity|]. vm_compute. discriminate.
Qed.

End concrete.

(** ** The further properties on concrete calls *)

Section further_concrete.

#[local] Existing Instance fake.types.

Abbreviation Run sdk req := (@RunFunction fake.types sdk req).

Lemma desired_resources_unreadable_witness :
  is_fatal (out_rsp (Run faulty.unreadable_desired fake.two_networks)) = true ∧
  fatal_messages (out_rsp (Run faulty.unreadable_desired fake.two_networks)) =
    ["cannot get desired resources from *v1.RunFunctionRequest: cannot unmarshal desired resource"] ∧
  out_desired (Run faulty.unreadable_desired fake.two_networks) = None.
Proof.
  destruct (@desired_resources_unreadable _ faulty.unreadable_desired fake.two_networks
              (fake.xr_code 2 true) "cannot unmarshal desired resource")
    as (_ & Hfatal & Hmsg & _ & Hnone & _); [reflexivity|reflexivity|].
  split_and!; [exact Hfatal|exact Hmsg|exact Hnone].
Defined.

Lemma write_back_failure_witness :
  is_fatal (out_rsp (Run faulty.unwritable_desired fake.two_networks)) = true ∧
  fatal_messages (out_rsp (Run faulty.unwritable_desired fake.two_networks)) =
    ["cannot set desired composed resources in *v1.RunFunctionResponse: cannot marshal desired resource"] ∧
  (size <$> out_desired (Run faulty.unwritable_desired fake.two_networks)) = Some 4%nat.
Proof.
  destruct (@write_back_failure _ faulty.unwritable_desired fake.two_networks
              (fake.xr_code 2 true) ∅ faulty.first_result
              (Some {| fake.st_Composite := None; fake.st_Resources := ∅ |})
              "cannot marshal desired resource")
    as (Hfatal & Hmsg & _ & _ & Hfinal & _).
  - reflexivity.
  - reflexivity.
  - vm_compute. reflexivity.
  - vm_compute. reflexivity.
  - split_and!; [exact Hfatal|exact Hmsg|].
    rewrite Hfinal. vm_compute. reflexivity.
Defined.

Lemma nonpositive_count_no_iteration_witness :
  out_desired (Run faulty.nothing_converts faulty.negative_count) =
    Some {[ "bucket" := fake.composed fake.earlier_entry ]} ∧
  is_fatal (out_rsp (Run faulty.nothing_converts faulty.negative_count)) = false.
Proof.
  destruct (@nonpositive_count_no_iteration _ faulty.nothing_converts
              faulty.negative_count (fake.xr_code (-3) true)
              {[ "bucket" := fake.composed fake.earlier_entry ]})
    as (Hfinal & _ & Hok).
  - reflexivity.
  - vm_compute. reflexivity.
  - change (-3 ≤ 0). lia.
  - split; [exact Hfinal|]. apply Hok. vm_compute. reflexivity.
Defined.

Lemma response_envelope_witness :
  fnv1.rsp_Meta (out_rsp (Run fake.gateway_1_refused fake.three_networks)) =
    Some {| fnv1.rspm_Tag := "";
            fnv1.rspm_Ttl := Some {| durationpb.Seconds := 60; durationpb.Nanos := 0 |} |} ∧
  fnv1.rsp_Context (out_rsp (Run fake.gateway_1_refused fake.three_networks)) = None.
Proof.
  destruct (@response_envelope _ fake.gateway_1_refused fake.three_networks)
    as (Hmeta & Hcontext & _).
  split; [exact Hmeta|exact Hcontext].
Defined.

Lemma response_desired_all_or_nothing_witness :
  fnv1.rsp_Desired (out_rsp (Run fake.gateway_1_refused fake.three_networks)) =
    fnv1.req_Desired fake.three_networks.
Proof.
  destruct (@response_desired_all_or_nothing _ fake.gateway_1_refused fake.three_networks)
    as [Hsame|(oxr & d0 & final & Hoxr & Hd0 & Hloop & _)]; [exact Hsame|].
  injection Hoxr as <-. injection Hd0 as <-.
  vm_compute in Hloop. discriminate.
Defined.

Lemma rerun_leaves_the_map_witness :
  out_desired (Run fake.all_accepted fake.two_networks) = Some faulty.first_result ∧
  out_desired (Run fake.all_accepted faulty.second_call) = Some faulty.first_result.
Proof.
  assert (out_desired (Run fake.all_accepted fake.two_networks) = Some faulty.first_result)
    as Hfirst by (vm_compute; reflexivity).
  split; [exact Hfirst|].
  refine (proj1 (@rerun_leaves_the_map _ fake.all_accepted fake.two_networks
                   faulty.second_call (fake.xr_code 2 true) faulty.first_result
                   _ _ Hfirst _ _));
    [reflexivity|vm_compute; reflexivity|reflexivity|vm_compute; reflexivity].
Defined.

Lemma conversions_needed_witness :
  ∃ final,
    out_desired (Run faulty.no_gateway_type faulty.without_gateways) = Some final ∧
    is_fatal (out_rsp (Run faulty.no_gateway_type faulty.without_gateways)) = false ∧
    final !! "gateway-code-0" = None.
Proof.
  destruct (@conversions_needed _ faulty.no_gateway_type faulty.without_gateways
              (fake.xr_code 2 false) ∅)
    as (final & Hfinal & Hok & _ & Hnone).
  - reflexivity.
  - reflexivity.
  - intros i Hi. change (0 ≤ i < 2) in Hi.
    assert (i = 0 ∨ i = 1) as [-> | ->] by lia; eexists; vm_compute; reflexivity.
  - intros Hyes. vm_compute in Hyes. discriminate.
  - exists final. split; [exact Hfinal|]. split.
    + apply Hok. reflexivity.
    + exact (Hnone eq_refl 0).
Defined.

Lemma first_failure_reported_witness :
  is_fatal (out_rsp (Run faulty.two_refused fake.three_networks)) = true ∧
  ∃ i0 err0 msg,
    0 ≤ i0 ≤ 2 ∧
    fatal_messages (out_rsp (Run faulty.two_refused fake.three_networks)) =
      [errors.Wrapf err0 msg].
Proof.
  destruct (@first_failure_reported _ faulty.two_refused fake.three_networks
              (fake.xr_code 3 true) ∅ 2 "did not find Go type in scheme")
    as (Hfatal & i0 & err0 & msg & Hi0 & _ & _ & Hmsg).
  - reflexivity.
  - reflexivity.
  - change (0 ≤ 2 < 3). lia.
  - right. split; vm_compute; reflexivity.
  - split; [exact Hfatal|]. by exists i0, err0, msg.
Defined.

(** The error reported is that of the VPC of index 1, not that of the
    gateway of index 2. *)
Example first_failure_reported_message :
  fatal_messages (out_rsp (Run faulty.two_refused fake.three_networks)) =
    ["cannot convert *v1beta1.VPC to *composed.Unstructured: did not find Go type in scheme"].
Proof. vm_compute. reflexivity. Qed.

Lemma desired_size_bounds_witness :
  ∃ final,
    out_desired (Run fake.gateway_1_refused fake.three_networks) = Some final ∧
    (0 ≤ size final ≤ 6)%nat.
Proof.
  destruct (out_desired (Run fake.gateway_1_refused fake.three_networks))
    as [final|] eqn:Hout; [|vm_compute in Hout; discriminate].
  exists final. split; [reflexivity|].
  destruct (@desired_size_bounds _ fake.gateway_1_refused fake.three_networks final Hout)
    as (oxr & d0 & Hoxr & Hd0 & Hlow & Hhigh).
  injection Hoxr as <-. injection Hd0 as <-.
  split; [lia|exact Hhigh].
Defined.

Lemma upsert_takes_the_name_witness :
  ∃ final v,
    out_desired (Run fake.all_accepted fake.name_taken) = Some final ∧
    final !! "vpc-code-0" = Some v ∧
    resource.Ready v = "" ∧
    v ≠ fake.composed fake.earlier_entry.
Proof.
  destruct (out_desired (Run fake.all_accepted fake.name_taken))
    as [final|] eqn:Hout; [|vm_compute in Hout; discriminate].
  destruct (@upsert_takes_the_name _ fake.all_accepted fake.name_taken
              (fake.xr_code 1 true)
              {[ "vpc-code-0" := fake.composed fake.earlier_entry ]} final 0)
    as [(v & Hv & _ & Hready & Hnew) _].
  - reflexivity.
  - vm_compute. reflexivity.
  - vm_compute. reflexivity.
  - exact Hout.
  - change (0 ≤ 0 < 1). lia.
  - exists final, v. split; [reflexivity|]. split; [exact Hv|]. split; [exact Hready|].
    apply Hnew; [vm_compute; reflexivity|vm_compute; discriminate].
Defined.

Lemma names_determine_id_and_index_witness : vpcName "a-1" 2 ≠ vpcName "a" 12.
Proof.
  intros Heq.
  destruct (names_determine_id_and_index "a-1" "a" 2 12) as [Hvpc _]; [lia|lia|].
  destruct (Hvpc Heq) as [Hid _]. discriminate Hid.
Defined.

Lemma selector_matches_own_vpc_only_witness :
  ¬ ({[ "networks.meta.fn.crossplane.io/vpc-id" := vpcName "code" 0 ]}
       : gmap string string) ⊆
    metav1.Labels (awsv1beta1.vpc_ObjectMeta (mkVPC "code" "eu-central-1" "default" 1)).
Proof.
  destruct (selector_matches_own_vpc_only "code" "eu-central-1" "default"
              "code" "eu-central-1" "default" 0 1)
    as (_ & sel & Hsel & Hmatch).
  injection Hsel as <-. intros Hsub. apply Hmatch in Hsub. discriminate Hsub.
Defined.

Lemma other_ids_untouched_witness :
  ∃ final,
    out_desired (Run fake.all_accepted faulty.beside_prod) = Some final ∧
    final !! vpcName "prod" 0 = Some (fake.composed fake.earlier_entry).
Proof.
  destruct (out_desired (Run fake.all_accepted faulty.beside_prod))
    as [final|] eqn:Hout; [|vm_compute in Hout; discriminate].
  exists final. split; [reflexivity|].
  destruct (@other_ids_untouched _ fake.all_accepted faulty.beside_prod final "prod" 0
              Hout)
    as (oxr & d0 & Hoxr & Hd0 & Hsame); [lia|].
  injection Hoxr as <-. injection Hd0 as <-.
  destruct Hsame as [-> _]; [vm_compute; discriminate|].
  vm_compute. reflexivity.
Defined.

End further_concrete.
